(** * realtime-canvas: the replicated operation stacks

    A shallow embedding of the synchronisation core of the collaborative
    canvas: [src/canvas.ts] (operation records and the stroke recorder),
    [src/realtime.ts] (broadcast channel and operation log client),
    [src/users.ts] (the user registry) and [src/main.ts] (the two stacks
    [operations] / [undoneOperations] and every transition on them).

    Conventions.
    - A JavaScript array is a [list] whose tail is the end of the list:
      [push] appends, [pop] removes the last element.
    - [Date.now()] and [Math.random()] are inputs of the functions that call
      them, one argument per call, in evaluation order.
    - Integers ([operationIndex], timestamps, pixel coordinates) are [Z].
    - Raster output ([ctx.stroke], [clearRect]) is not part of the state:
      no transition of the stacks reads the pixels back.
    - Requests sent to the backend are recorded in [Supabase.Net]; replies of
      the backend are inputs. *)

From stdpp Require Import base list strings gmap pretty sorting.
From Stdlib Require Import QArith.

Open Scope Z_scope.
Open Scope string_scope.
Open Scope list_scope.

(** ** JavaScript arrays *)
Module JSArray.

Definition push {A} (arr : list A) (x : A) : list A := arr ++ [x].

(** [arr.pop()]: the removed element ([None] for [undefined]) and the array
    that is left. *)
Definition pop {A} (arr : list A) : option A * list A :=
  (last arr, removelast arr).

End JSArray.

(** ** canvas.ts *)
Module Canvas.

Inductive Tool := brush | eraser.

#[global] Instance Tool_eq_dec : EqDecision Tool.
Proof. solve_decision. Defined.

Module DrawingPoint.
Record t := mk { x : Z; y : Z }.
End DrawingPoint.

Module DrawingPath.
Record t := mk {
  points : list DrawingPoint.t;
  color : string;
  width : Z;
  tool : Tool
}.
End DrawingPath.

(** [type] is the string found at run time: the declared union
    ['draw' | 'erase' | 'clear'] is not checked where records are built from
    database rows. *)
Module DrawingOperation.
Record t := mk {
  id : string;
  type : string;
  path : option DrawingPath.t;
  timestamp : Z;
  userId : string
}.
End DrawingOperation.

(** The array held in [CanvasDrawing.operations].  [setOperations] stores the
    caller's array itself, so after a join the recorder and the application
    hold one array: [Shared] stands for "the application's [operations]
    array", [Own l] for a separate array with content [l]. *)
Inductive OpsRef :=
  | Shared
  | Own (l : list DrawingOperation.t).

(** [ref.push(op)], where [shared] is the content of the application's
    array. *)
Definition ops_push (ref : OpsRef) (shared : list DrawingOperation.t)
    (op : DrawingOperation.t) : OpsRef * list DrawingOperation.t :=
  match ref with
  | Shared => (Shared, JSArray.push shared op)
  | Own l => (Own (JSArray.push l op), shared)
  end.

Module CanvasDrawing.

Record t := mk {
  isDrawing : bool;
  currentPath : list DrawingPoint.t;
  operations : OpsRef;
  currentColor : string;
  currentWidth : Z;
  currentTool : Tool;
  userId : string
}.

Definition new (userId : string) : t :=
  mk false [] (Own []) "#000000" 2 brush userId.

Definition setColor (color : string) (c : t) : t :=
  mk (isDrawing c) (currentPath c) (operations c) color (currentWidth c)
     (currentTool c) (userId c).

Definition setWidth (width : Z) (c : t) : t :=
  mk (isDrawing c) (currentPath c) (operations c) (currentColor c) width
     (currentTool c) (userId c).

Definition setTool (tool : Tool) (c : t) : t :=
  mk (isDrawing c) (currentPath c) (operations c) (currentColor c)
     (currentWidth c) tool (userId c).

Definition startDrawing (x y : Z) (c : t) : t :=
  mk true [DrawingPoint.mk x y] (operations c) (currentColor c)
     (currentWidth c) (currentTool c) (userId c).

(** [generateId]: [now] is [Date.now()], [rnd] is
    [Math.random().toString(36).substr(2, 9)]. *)
Definition generateId (now : Z) (rnd : string) : string :=
  pretty now +:+ "-" +:+ rnd.

Definition type_of_tool (tool : Tool) : string :=
  if decide (tool = eraser) then "erase" else "draw".

(** [draw(x, y)] during a stroke: the operation for the path so far. *)
Definition draw (x y : Z) (t_id : Z) (rnd : string) (t_ts : Z) (c : t)
    : t * option DrawingOperation.t :=
  if negb (isDrawing c) then (c, None)
  else
    let pts := JSArray.push (currentPath c) (DrawingPoint.mk x y) in
    let path := DrawingPath.mk pts (currentColor c) (currentWidth c)
                               (currentTool c) in
    (mk (isDrawing c) pts (operations c) (currentColor c) (currentWidth c)
        (currentTool c) (userId c),
     Some (DrawingOperation.mk (generateId t_id rnd)
             (type_of_tool (currentTool c)) (Some path) t_ts (userId c))).

(** [stopDrawing()]: the finished stroke, pushed on the recorder's own
    array (which may be the application's, see [OpsRef]). *)
Definition stopDrawing (t_id : Z) (rnd : string) (t_ts : Z) (c : t)
    (shared : list DrawingOperation.t)
    : t * list DrawingOperation.t * option DrawingOperation.t :=
  if negb (isDrawing c) || bool_decide (currentPath c = []) then
    (mk false (currentPath c) (operations c) (currentColor c)
        (currentWidth c) (currentTool c) (userId c), shared, None)
  else
    let operation :=
      DrawingOperation.mk (generateId t_id rnd)
        (type_of_tool (currentTool c))
        (Some (DrawingPath.mk (currentPath c) (currentColor c)
                 (currentWidth c) (currentTool c)))
        t_ts (userId c) in
    let '(ref, shared') := ops_push (operations c) shared operation in
    (mk false [] ref (currentColor c) (currentWidth c) (currentTool c)
        (userId c), shared', Some operation).

(** [setOperations(operations)] with the application's array as argument. *)
Definition setOperations_shared (c : t) : t :=
  mk (isDrawing c) (currentPath c) Shared (currentColor c) (currentWidth c)
     (currentTool c) (userId c).

(** The application assigns a new array to its own [operations] field: a
    recorder that shared the old array keeps it. *)
Definition detach (old : list DrawingOperation.t) (c : t) : t :=
  match operations c with
  | Shared => mk (isDrawing c) (currentPath c) (Own old) (currentColor c)
                 (currentWidth c) (currentTool c) (userId c)
  | Own _ => c
  end.

End CanvasDrawing.

End Canvas.

(** ** users.ts *)
Module Users.

Module User.
Record t := mk {
  id : string;
  username : string;
  color : string;
  cursorX : Z;
  cursorY : Z
}.
End User.

(** [UserManager]: the [Map] from user id to user.  The cursor overlay it
    paints is raster output and is left out. *)
Module UserManager.

Record t := mk { users : gmap string User.t }.

Definition new : t := mk ∅.

Definition addUser (user : User.t) (m : t) : t :=
  mk (<[User.id user := user]> (users m)).

Definition removeUser (userId : string) (m : t) : t :=
  mk (delete userId (users m)).

Definition updateCursor (userId : string) (x y : Z) (m : t) : t :=
  match users m !! userId with
  | Some user =>
      mk (<[userId := User.mk (User.id user) (User.username user)
                              (User.color user) x y]> (users m))
  | None => m
  end.

End UserManager.

End Users.

(** ** realtime.ts *)
Module Realtime.
Import Canvas.

Module MessageType.
Inductive t := draw | cursor | undo | redo | clear | user_joined | user_left.
End MessageType.

Module RealtimeMessage.
Record t := mk {
  type : MessageType.t;
  userId : string;
  username : option string;
  color : option string;
  path : option DrawingPath.t;
  operationId : option string;
  cursorX : option Z;
  cursorY : option Z;
  operationIndex : option Z
}.
End RealtimeMessage.

(** The backend as the client sees it: the requests it issues and the
    replies it gets. *)
Module Supabase.

(** The object passed to [from('drawing_operations').insert]. *)
Module OperationInsert.
Record t := mk {
  room_id : string;
  user_id : string;
  operation_type : string;
  operation_index : Z;
  data_path : option DrawingPath.t;
  data_operationId : option string
}.
End OperationInsert.

(** A row of [drawing_operations] as a [select('*')] returns it; [id] and
    [created_at] are column defaults of the table, [created_at] here already
    as the milliseconds [new Date(created_at).getTime()] reads from it. *)
Module OperationRow.
Record t := mk {
  id : string;
  room_id : string;
  user_id : string;
  operation_type : string;
  operation_index : Z;
  data_path : option DrawingPath.t;
  data_operationId : option string;
  created_at : Z
}.
End OperationRow.

(** The object passed to [from('rooms').insert] (its two [new Date()] stamps
    are not recorded). *)
Module RoomInsert.
Record t := mk { id : string; name : string }.
End RoomInsert.

(** The [{ data, error }] a query resolves to. *)
Record QueryResult (A : Type) := mkResult {
  data : option A;
  error : option string
}.
Arguments mkResult {A}.
Arguments data {A}.
Arguments error {A}.

(** An awaited promise: fulfilled with a value, or rejected (the [await]
    throws). *)
Inductive Awaited (A : Type) :=
  | Fulfilled (a : A)
  | Rejected (reason : string).
Arguments Fulfilled {A}.
Arguments Rejected {A}.

(** What the client has put on the network so far, oldest first:
    [broadcasts] are the payloads sent on the room channel (event
    ['drawing']).  [overlaps] is the schedule of the event loop to come: a
    sender awaits its broadcast before it issues its insert, nobody awaits
    the sender, and the head of [overlaps] tells how many other senders
    start while the next sender waits (none, once the list is used up). *)
Record Net := mkNet {
  broadcasts : list RealtimeMessage.t;
  inserted_operations : list OperationInsert.t;
  inserted_rooms : list RoomInsert.t;
  overlaps : list nat
}.

Definition empty_net : Net := mkNet [] [] [] [].

End Supabase.
Import Supabase.

Module RealtimeSync.

(** [channel] holds the topic of the channel once [connect] has created it;
    [onMessageCallback] tells whether a callback is registered (the callback
    itself is [Main.handleRealtimeMessage], see [Main.broadcast_handler]).
    Presence tracking, the [active_users] table and the heartbeat are left
    out: they do not touch operations. *)
Record t := mk {
  roomId : string;
  userId : string;
  username : string;
  userColor : string;
  channel : option string;
  onMessageCallback : bool;
  operationIndex : Z
}.

Definition new (roomId userId username userColor : string) : t :=
  mk roomId userId username userColor None false 0.

Definition connect (r : t) : t :=
  mk (roomId r) (userId r) (username r) (userColor r)
     (Some ("room:" +:+ roomId r)) true (operationIndex r).

(** How a call of [connect] ends: it returns; or [supabase.channel] throws,
    after the callback was stored; or the chain of [.on] and [.subscribe]
    throws, after the channel was stored as well. *)
Inductive Connecting :=
  | Subscribed
  | ChannelThrows (reason : string)
  | SubscribeThrows (reason : string).

(** [connect(onMessage)]: the object it leaves and the exception, if any. *)
Definition connect_attempt (how : Connecting) (r : t) : t * option string :=
  match how with
  | Subscribed => (connect r, None)
  | ChannelThrows reason =>
      (mk (roomId r) (userId r) (username r) (userColor r) (channel r) true
          (operationIndex r), Some reason)
  | SubscribeThrows reason => (connect r, Some reason)
  end.

(** The handler [connect] registers for ['broadcast'] events: the message
    handed to the callback, [None] when the callback is not invoked. *)
Definition broadcast_handler (r : t) (payload : RealtimeMessage.t)
    : option RealtimeMessage.t :=
  if onMessageCallback r
     && negb (String.eqb (RealtimeMessage.userId payload) (userId r))
  then Some payload
  else None.

(** [this.operationIndex++]: the value read and the object afterwards. *)
Definition next_operationIndex (r : t) : Z * t :=
  (operationIndex r,
   mk (roomId r) (userId r) (username r) (userColor r) (channel r)
      (onMessageCallback r) (operationIndex r + 1)).

(** [this.channel?.send({ type: 'broadcast', event: 'drawing', payload })] *)
Definition channel_send (r : t) (payload : RealtimeMessage.t) (net : Net)
    : Net :=
  match channel r with
  | Some _ =>
      mkNet (JSArray.push (broadcasts net) payload)
            (inserted_operations net) (inserted_rooms net) (overlaps net)
  | None => net
  end.

(** [saveOperation(type, path, operationId)], with [r] the object as it is
    when the insert is issued. *)
Definition saveOperation (type : string) (path : option DrawingPath.t)
    (operationId : option string) (r : t) (net : Net) : Net :=
  mkNet (broadcasts net)
        (JSArray.push (inserted_operations net)
           (OperationInsert.mk (roomId r) (userId r) type (operationIndex r)
                               path operationId))
        (inserted_rooms net) (overlaps net).

(** [await this.channel?.send(...)] returns: the object as the sender finds
    it then.  Each sender that started in the meantime has incremented
    [operationIndex] once; nothing else writes to the object. *)
Definition resumed (r : t) (net : Net) : t * Net :=
  match overlaps net with
  | [] => (r, net)
  | started :: schedule =>
      (mk (roomId r) (userId r) (username r) (userColor r) (channel r)
          (onMessageCallback r) (operationIndex r + Z.of_nat started),
       mkNet (broadcasts net) (inserted_operations net) (inserted_rooms net)
             schedule)
  end.

(** The four senders.  The part before the [await] takes the index and
    broadcasts; the insert is issued from the object found after it
    ([resumed]).  The object returned is the one this sender leaves, with
    its own increment only: the senders that overlap make theirs when they
    run.  The awaited broadcast is taken to resolve, and the broadcasts to
    resolve in the order they were sent, so that the rows are issued in the
    order the senders started. *)
Definition sendDrawing (path : DrawingPath.t) (r : t) (net : Net) : t * Net :=
  let '(index, r') := next_operationIndex r in
  let message :=
    RealtimeMessage.mk MessageType.draw (userId r) (Some (username r))
      (Some (userColor r)) (Some path) None None None (Some index) in
  let '(later, net') := resumed r' (channel_send r' message net) in
  (r', saveOperation "draw" (Some path) None later net').

Definition sendUndo (operationId : string) (r : t) (net : Net) : t * Net :=
  let '(index, r') := next_operationIndex r in
  let message :=
    RealtimeMessage.mk MessageType.undo (userId r) None None None
      (Some operationId) None None (Some index) in
  let '(later, net') := resumed r' (channel_send r' message net) in
  (r', saveOperation "undo" None (Some operationId) later net').

Definition sendRedo (operationId : string) (r : t) (net : Net) : t * Net :=
  let '(index, r') := next_operationIndex r in
  let message :=
    RealtimeMessage.mk MessageType.redo (userId r) None None None
      (Some operationId) None None (Some index) in
  let '(later, net') := resumed r' (channel_send r' message net) in
  (r', saveOperation "redo" None (Some operationId) later net').

Definition sendClear (r : t) (net : Net) : t * Net :=
  let '(index, r') := next_operationIndex r in
  let message :=
    RealtimeMessage.mk MessageType.clear (userId r) None None None None None
      None (Some index) in
  let '(later, net') := resumed r' (channel_send r' message net) in
  (r', saveOperation "clear" None None later net').

Definition row_to_operation (op : OperationRow.t) : DrawingOperation.t :=
  DrawingOperation.mk (OperationRow.id op) (OperationRow.operation_type op)
    (OperationRow.data_path op) (OperationRow.created_at op)
    (OperationRow.user_id op).

(** [loadOperations()], given what the query
    [select('*').eq('room_id', roomId).order('operation_index', ascending)]
    resolved to. *)
Definition loadOperations (reply : QueryResult (list OperationRow.t))
    : list DrawingOperation.t :=
  match error reply with
  | Some _ => []
  | None => map row_to_operation (default [] (data reply))
  end.

(** [getOrCreateRoom()], given the [data] of the [maybeSingle] lookup. *)
Definition getOrCreateRoom (existing : option string) (r : t) (net : Net)
    : Net :=
  match existing with
  | Some _ => net
  | None =>
      mkNet (broadcasts net) (inserted_operations net)
            (JSArray.push (inserted_rooms net)
               (RoomInsert.mk (roomId r) ("Room " +:+ roomId r)))
            (overlaps net)
  end.

End RealtimeSync.

End Realtime.

(** ** main.ts *)
Module Main.
Import Canvas Users Realtime Realtime.Supabase.

(** The state of a [CollaborativeCanvas]: the objects it owns, its two
    stacks, the [isMouseDown] variable its mouse listeners close over and the
    text of the [connectionStatus] element.  The constants [userId],
    [username], [userColor] and [roomId] live on in [realtime]; the cursor
    throttle belongs to presence and is left out. *)
Record CollaborativeCanvas := mk {
  canvas : CanvasDrawing.t;
  realtime : RealtimeSync.t;
  userManager : UserManager.t;
  operations : list DrawingOperation.t;
  undoneOperations : list DrawingOperation.t;
  isMouseDown : bool;
  connectionStatus : string
}.

Definition new (roomId userId username userColor status : string)
    : CollaborativeCanvas :=
  mk (CanvasDrawing.new userId)
     (RealtimeSync.new roomId userId username userColor)
     UserManager.new [] [] false status.

Definition set_canvas (c : CanvasDrawing.t) (s : CollaborativeCanvas) :=
  mk c (realtime s) (userManager s) (operations s) (undoneOperations s)
     (isMouseDown s) (connectionStatus s).

Definition set_realtime (r : RealtimeSync.t) (s : CollaborativeCanvas) :=
  mk (canvas s) r (userManager s) (operations s) (undoneOperations s)
     (isMouseDown s) (connectionStatus s).

Definition set_userManager (m : UserManager.t) (s : CollaborativeCanvas) :=
  mk (canvas s) (realtime s) m (operations s) (undoneOperations s)
     (isMouseDown s) (connectionStatus s).

(** In-place change of the array in [operations] ([push], [pop]). *)
Definition set_operations (ops : list DrawingOperation.t)
    (s : CollaborativeCanvas) :=
  mk (canvas s) (realtime s) (userManager s) ops (undoneOperations s)
     (isMouseDown s) (connectionStatus s).

(** [this.operations = ops] with a new array [ops]: a recorder that shared
    the previous array keeps that one. *)
Definition assign_operations (ops : list DrawingOperation.t)
    (s : CollaborativeCanvas) :=
  mk (CanvasDrawing.detach (operations s) (canvas s)) (realtime s)
     (userManager s) ops (undoneOperations s) (isMouseDown s)
     (connectionStatus s).

Definition set_undoneOperations (ops : list DrawingOperation.t)
    (s : CollaborativeCanvas) :=
  mk (canvas s) (realtime s) (userManager s) (operations s) ops
     (isMouseDown s) (connectionStatus s).

Definition set_isMouseDown (b : bool) (s : CollaborativeCanvas) :=
  mk (canvas s) (realtime s) (userManager s) (operations s)
     (undoneOperations s) b (connectionStatus s).

Definition set_connectionStatus (text : string) (s : CollaborativeCanvas) :=
  mk (canvas s) (realtime s) (userManager s) (operations s)
     (undoneOperations s) (isMouseDown s) text.

(** A call of one of the senders of [realtime]. *)
Definition with_realtime
    (send : RealtimeSync.t → Net → RealtimeSync.t * Net)
    (s : CollaborativeCanvas) (net : Net) : CollaborativeCanvas * Net :=
  let '(r, net') := send (realtime s) net in (set_realtime r s, net').

(** *** Mouse listeners of [setupEventListeners] *)

Definition mousedown (x y : Z) (s : CollaborativeCanvas)
    : CollaborativeCanvas :=
  set_canvas (CanvasDrawing.startDrawing x y (canvas s))
             (set_isMouseDown true s).

(** The drawing half of the [mousemove] listener (the other half publishes
    the cursor through presence). *)
Definition mousemove (x y : Z) (t_id : Z) (rnd : string) (t_ts : Z)
    (s : CollaborativeCanvas) (net : Net) : CollaborativeCanvas * Net :=
  if isMouseDown s then
    let '(c, operation) :=
      CanvasDrawing.draw x y t_id rnd t_ts (canvas s) in
    let s1 := set_canvas c s in
    match operation with
    | Some op =>
        match DrawingOperation.path op with
        | Some path => with_realtime (RealtimeSync.sendDrawing path) s1 net
        | None => (s1, net)
        end
    | None => (s1, net)
    end
  else (s, net).

(** The [mouseup] listener: a finished stroke is pushed on [operations], the
    redo stack is replaced by an empty one and the stroke is sent. *)
Definition mouseup (t_id : Z) (rnd : string) (t_ts : Z)
    (s : CollaborativeCanvas) (net : Net) : CollaborativeCanvas * Net :=
  let '(s', net') :=
    if isMouseDown s then
      let '(c, shared, operation) :=
        CanvasDrawing.stopDrawing t_id rnd t_ts (canvas s) (operations s) in
      let s1 := set_operations shared (set_canvas c s) in
      match operation with
      | Some op =>
          match DrawingOperation.path op with
          | Some path =>
              let s2 := set_operations (JSArray.push (operations s1) op) s1 in
              let s3 := set_undoneOperations [] s2 in
              with_realtime (RealtimeSync.sendDrawing path) s3 net
          | None => (s1, net)
          end
      | None => (s1, net)
      end
    else (s, net) in
  (set_isMouseDown false s', net').

(** The [mouseleave] listener has the body of [mouseup]. *)
Definition mouseleave := mouseup.

(** *** Incoming messages *)

Definition handleRemoteUndo (s : CollaborativeCanvas) : CollaborativeCanvas :=
  if bool_decide (operations s = []) then s
  else
    match JSArray.pop (operations s) with
    | (Some operation, rest) =>
        set_undoneOperations (JSArray.push (undoneOperations s) operation)
          (set_operations rest s)
    | (None, rest) => set_operations rest s
    end.

Definition handleRemoteRedo (s : CollaborativeCanvas) : CollaborativeCanvas :=
  if bool_decide (undoneOperations s = []) then s
  else
    match JSArray.pop (undoneOperations s) with
    | (Some operation, rest) =>
        set_operations (JSArray.push (operations s) operation)
          (set_undoneOperations rest s)
    | (None, rest) => set_undoneOperations rest s
    end.

(** [handleRealtimeMessage(message)]; [t_id] and [t_ts] are the two
    [Date.now()] of the ['draw'] case. *)
Definition handleRealtimeMessage (t_id t_ts : Z)
    (message : RealtimeMessage.t) (s : CollaborativeCanvas)
    : CollaborativeCanvas :=
  match RealtimeMessage.type message with
  | MessageType.draw =>
      match RealtimeMessage.path message with
      | Some path =>
          let operation :=
            DrawingOperation.mk
              (RealtimeMessage.userId message +:+ "-" +:+ pretty t_id)
              (CanvasDrawing.type_of_tool (DrawingPath.tool path))
              (Some path) t_ts (RealtimeMessage.userId message) in
          set_operations (JSArray.push (operations s) operation) s
      | None => s
      end
  | MessageType.cursor =>
      match RealtimeMessage.cursorX message, RealtimeMessage.cursorY message
      with
      | Some x, Some y =>
          set_userManager
            (UserManager.updateCursor (RealtimeMessage.userId message) x y
               (userManager s)) s
      | _, _ => s
      end
  | MessageType.undo => handleRemoteUndo s
  | MessageType.redo => handleRemoteRedo s
  | MessageType.clear =>
      set_undoneOperations [] (assign_operations [] s)
  | MessageType.user_joined =>
      match RealtimeMessage.username message, RealtimeMessage.color message
      with
      | Some username, Some color =>
          if bool_decide (username = "") || bool_decide (color = "") then s
          else
            set_userManager
              (UserManager.addUser
                 (User.mk (RealtimeMessage.userId message) username color 0 0)
                 (userManager s)) s
      | _, _ => s
      end
  | MessageType.user_left =>
      set_userManager
        (UserManager.removeUser (RealtimeMessage.userId message)
           (userManager s)) s
  end.

(** What a ['broadcast'] event does to the application once [connect] has
    registered [handleRealtimeMessage] as the callback. *)
Definition broadcast_handler (t_id t_ts : Z) (payload : RealtimeMessage.t)
    (s : CollaborativeCanvas) : CollaborativeCanvas :=
  match RealtimeSync.broadcast_handler (realtime s) payload with
  | Some message => handleRealtimeMessage t_id t_ts message s
  | None => s
  end.

(** *** Buttons *)

Definition undo (s : CollaborativeCanvas) (net : Net)
    : CollaborativeCanvas * Net :=
  if bool_decide (operations s = []) then (s, net)
  else
    match JSArray.pop (operations s) with
    | (Some operation, rest) =>
        with_realtime
          (RealtimeSync.sendUndo (DrawingOperation.id operation))
          (set_undoneOperations (JSArray.push (undoneOperations s) operation)
             (set_operations rest s))
          net
    | (None, rest) => (set_operations rest s, net)
    end.

Definition redo (s : CollaborativeCanvas) (net : Net)
    : CollaborativeCanvas * Net :=
  if bool_decide (undoneOperations s = []) then (s, net)
  else
    match JSArray.pop (undoneOperations s) with
    | (Some operation, rest) =>
        with_realtime
          (RealtimeSync.sendRedo (DrawingOperation.id operation))
          (set_operations (JSArray.push (operations s) operation)
             (set_undoneOperations rest s))
          net
    | (None, rest) => (set_undoneOperations rest s, net)
    end.

Definition clear (s : CollaborativeCanvas) (net : Net)
    : CollaborativeCanvas * Net :=
  with_realtime RealtimeSync.sendClear
    (set_undoneOperations [] (assign_operations [] s)) net.

(** *** Joining a room *)

(** What [connectToRoom] awaits, in order: the room lookup of
    [getOrCreateRoom], the room insert (issued only when the lookup found no
    room), the history query of [loadOperations], and [connect]. *)
Record JoinReplies := mkJoinReplies {
  room_lookup : Awaited (option string);
  room_insert : Awaited unit;
  history : Awaited (QueryResult (list OperationRow.t));
  subscription : RealtimeSync.Connecting
}.

(** The replies of a join whose room insert and [connect] go through. *)
Definition mkReplies (room_lookup : Awaited (option string))
    (history : Awaited (QueryResult (list OperationRow.t))) : JoinReplies :=
  mkJoinReplies room_lookup (Fulfilled ()) history RealtimeSync.Subscribed.

(** The [catch] block of [connectToRoom]. *)
Definition connection_error (s : CollaborativeCanvas)
    : CollaborativeCanvas :=
  set_connectionStatus "Connection Error" s.

(** Whether the room insert of [getOrCreateRoom] is awaited and throws. *)
Definition room_insert_throws (replies : JoinReplies) : bool :=
  match room_insert replies with
  | Fulfilled _ => false
  | Rejected _ =>
      match room_lookup replies with
      | Fulfilled None => true
      | _ => false
      end
  end.

Definition connectToRoom (replies : JoinReplies) (s : CollaborativeCanvas)
    (net : Net) : CollaborativeCanvas * Net :=
  match room_lookup replies with
  | Rejected _ => (connection_error s, net)
  | Fulfilled existing =>
      let net1 := RealtimeSync.getOrCreateRoom existing (realtime s) net in
      if room_insert_throws replies then (connection_error s, net1)
      else
        match history replies with
        | Rejected _ => (connection_error s, net1)
        | Fulfilled reply =>
            let savedOperations := RealtimeSync.loadOperations reply in
            let s1 := assign_operations savedOperations s in
            let s2 :=
              set_canvas (CanvasDrawing.setOperations_shared (canvas s1))
                         s1 in
            let '(r, thrown) :=
              RealtimeSync.connect_attempt (subscription replies)
                                           (realtime s2) in
            let s3 := set_realtime r s2 in
            match thrown with
            | Some _ => (connection_error s3, net1)
            | None => (set_connectionStatus "Connected" s3, net1)
            end
        end
  end.

End Main.

(** ** The fold rule of the specification

    The rule as the specification words it (section 4.3), over the rows of
    the log in the order the log returns them: [draw]/[erase] append to
    [active] and empty [undone]; [clear] empties both; [undo] moves the tail
    of [active] onto [undone]; [redo] moves the tail of [undone] back; any
    other kind is dropped.  It is the reference the join of the program is
    compared with, not a part of the program. *)
Module Spec.
Import Canvas Realtime Realtime.Supabase.

(** The pair ([active], [undone]) the fold produces. *)
Definition Folded : Type :=
  list DrawingOperation.t * list DrawingOperation.t.

Definition fold_step (st : Folded) (row : OperationRow.t) : Folded :=
  let '(active, undone) := st in
  let kind := OperationRow.operation_type row in
  if bool_decide (kind = "draw") || bool_decide (kind = "erase") then
    (active ++ [RealtimeSync.row_to_operation row], [])
  else if bool_decide (kind = "clear") then ([], [])
  else if bool_decide (kind = "undo") then
    match JSArray.pop active with
    | (Some op, rest) => (rest, undone ++ [op])
    | (None, _) => st
    end
  else if bool_decide (kind = "redo") then
    match JSArray.pop undone with
    | (Some op, rest) => (active ++ [op], rest)
    | (None, _) => st
    end
  else st.

Definition fold_rule (log : list OperationRow.t) : Folded :=
  foldl fold_step ([], []) log.

End Spec.

(** ** The two stacks *)
Module Stacks.
Import Canvas Users Realtime Realtime.Supabase Main.

(** The pair ([active], [undone]) of a replica. *)
Definition stacks (s : CollaborativeCanvas)
    : list DrawingOperation.t * list DrawingOperation.t :=
  (operations s, undoneOperations s).

(** Popping the tail of [from] and pushing it on [to]; nothing moves when
    [from] is empty. *)
Definition move_tail {A} (from to : list A) : list A * list A :=
  match JSArray.pop from with
  | (Some x, rest) => (rest, JSArray.push to x)
  | (None, _) => (from, to)
  end.

(** The undo and redo transitions of a replica: the two buttons and the two
    remote handlers. *)
Inductive Transition := LocalUndo | LocalRedo | RemoteUndo | RemoteRedo.

Definition run (tr : Transition) (s : CollaborativeCanvas) (net : Net)
    : CollaborativeCanvas * Net :=
  match tr with
  | LocalUndo => undo s net
  | LocalRedo => redo s net
  | RemoteUndo => (handleRemoteUndo s, net)
  | RemoteRedo => (handleRemoteRedo s, net)
  end.

(** [message] with its [type] replaced: every message of type [ty] is
    [with_type ty message] for some [message]. *)
Definition with_type (ty : MessageType.t) (message : RealtimeMessage.t)
    : RealtimeMessage.t :=
  RealtimeMessage.mk ty (RealtimeMessage.userId message)
    (RealtimeMessage.username message) (RealtimeMessage.color message)
    (RealtimeMessage.path message) (RealtimeMessage.operationId message)
    (RealtimeMessage.cursorX message) (RealtimeMessage.cursorY message)
    (RealtimeMessage.operationIndex message).

(** Whether a second delivery of [message] finds nothing left to do, in the
    state [s1] the first delivery produced. *)
Definition redelivery_noop (message : RealtimeMessage.t)
    (s1 : CollaborativeCanvas) : bool :=
  match RealtimeMessage.type message with
  | MessageType.draw =>
      match RealtimeMessage.path message with
      | Some _ => false
      | None => true
      end
  | MessageType.undo => bool_decide (operations s1 = [])
  | MessageType.redo => bool_decide (undoneOperations s1 = [])
  | _ => true
  end.

(** The four senders of operation messages, by name. *)
Inductive Sender :=
  | SendDrawing (path : DrawingPath.t)
  | SendUndo (operationId : string)
  | SendRedo (operationId : string)
  | SendClear.

Definition send (via : Sender)
    : RealtimeSync.t → Net → RealtimeSync.t * Net :=
  match via with
  | SendDrawing path => RealtimeSync.sendDrawing path
  | SendUndo operationId => RealtimeSync.sendUndo operationId
  | SendRedo operationId => RealtimeSync.sendRedo operationId
  | SendClear => RealtimeSync.sendClear
  end.




(** A row of the log is a stroke when its kind is [draw] or [erase]. *)
Definition is_stroke (row : OperationRow.t) : bool :=
  bool_decide (OperationRow.operation_type row = "draw")
  || bool_decide (OperationRow.operation_type row = "erase").

End Stacks.

(** ** Sample data used by the closed examples *)
Module Sample.
Import Canvas Users Realtime Realtime.Supabase.

Definition stroke : DrawingPath.t :=
  DrawingPath.mk [DrawingPoint.mk 10 10; DrawingPoint.mk 20 15] "#ef4444" 2
                 brush.

Definition opA : DrawingOperation.t :=
  DrawingOperation.mk "1700000000000-a1b2c3d4e" "draw" (Some stroke)
                      1700000000000 "user-bob".

Definition opB : DrawingOperation.t :=
  DrawingOperation.mk "1700000000500-f5g6h7i8j" "draw" (Some stroke)
                      1700000000500 "user-alice".

(** A replica of [user-alice] in [room-1], freshly constructed. *)
Definition alice : Main.CollaborativeCanvas :=
  Main.new "room-1" "user-alice" "QuickFox" "#3b82f6" "Connecting...".

(** The same replica once connected (empty history). *)
Definition alice_connected : Main.CollaborativeCanvas :=
  fst (Main.connectToRoom
         (Main.mkReplies (Fulfilled (Some "room-1"))
                         (Fulfilled (mkResult (Some []) None)))
         alice empty_net).

(** [alice_connected] holding [opA] on [operations] and [opB] on
    [undoneOperations]. *)
Definition alice_A_B : Main.CollaborativeCanvas :=
  Main.set_undoneOperations [opB] (Main.set_operations [opA] alice_connected).

(** A stroke of [user-bob] as it arrives on the channel. *)
Definition bob_draw : RealtimeMessage.t :=
  RealtimeMessage.mk MessageType.draw "user-bob" (Some "CleverEagle")
    (Some "#ef4444") (Some stroke) None None None (Some 0).

(** A message whose [userId] is the replica's own. *)
Definition alice_echo : RealtimeMessage.t :=
  RealtimeMessage.mk MessageType.draw "user-alice" (Some "QuickFox")
    (Some "#3b82f6") (Some stroke) None None None (Some 0).

(** Rows of the log of [room-1]: a stroke, then a clear. *)
Definition rowA : OperationRow.t :=
  OperationRow.mk "7d3c0a52-0001" "room-1" "user-bob" "draw" 1 (Some stroke)
                  None 1700000000000.

Definition rowClear : OperationRow.t :=
  OperationRow.mk "7d3c0a52-0002" "room-1" "user-bob" "clear" 2 None None
                  1700000001000.

Definition rowUndo : OperationRow.t :=
  OperationRow.mk "7d3c0a52-0003" "room-1" "user-bob" "undo" 2 None
                  (Some "1700000000000-a1b2c3d4e") 1700000001000.

Definition join_with (reply : QueryResult (list OperationRow.t))
    : Main.CollaborativeCanvas :=
  fst (Main.connectToRoom
         (Main.mkReplies (Fulfilled (Some "room-1")) (Fulfilled reply))
         alice empty_net).

End Sample.

(** ** canvas.ts: the calls made on the 2D context *)
Module Render.
Import Canvas.

Inductive Composite := destination_out | source_over.

(** A call on (or an assignment to a property of) the
    [CanvasRenderingContext2D], with the name it has there.  Coordinates are
    rationals: pixel coordinates are integers ([Z]) and the smoothing halves
    their sums.  [clearRect] stands for
    [clearRect(0, 0, canvas.width, canvas.height)]. *)
Inductive Call :=
  | save
  | restore
  | globalCompositeOperation (mode : Composite)
  | strokeStyle (style : string)
  | lineWidth (w : Z)
  | beginPath
  | moveTo (x y : Q)
  | quadraticCurveTo (cpx cpy x y : Q)
  | lineTo (x y : Q)
  | stroke
  | clearRect.

Definition mid (a b : Z) : Q := ((inject_Z a + inject_Z b) / 2)%Q.

(** The loop of [drawPath]: one curve per point after the first, with
    [prevPoint] the point before it. *)
Fixpoint curves (prevPoint : DrawingPoint.t) (rest : list DrawingPoint.t)
    : list Call :=
  match rest with
  | [] => []
  | point :: rest' =>
      quadraticCurveTo (inject_Z (DrawingPoint.x prevPoint))
                       (inject_Z (DrawingPoint.y prevPoint))
                       (mid (DrawingPoint.x prevPoint) (DrawingPoint.x point))
                       (mid (DrawingPoint.y prevPoint) (DrawingPoint.y point))
      :: curves point rest'
  end.

Definition drawPath (path : DrawingPath.t) : list Call :=
  match DrawingPath.points path with
  | first :: (_ :: _) as rest =>
      let lastPoint := default first (last rest) in
      [save]
      ++ (if decide (DrawingPath.tool path = eraser)
          then [globalCompositeOperation destination_out;
                strokeStyle "rgba(0,0,0,1)"]
          else [globalCompositeOperation source_over;
                strokeStyle (DrawingPath.color path)])
      ++ [lineWidth (DrawingPath.width path);
          beginPath;
          moveTo (inject_Z (DrawingPoint.x first))
                 (inject_Z (DrawingPoint.y first))]
      ++ curves first rest
      ++ [lineTo (inject_Z (DrawingPoint.x lastPoint))
                 (inject_Z (DrawingPoint.y lastPoint));
          stroke;
          restore]
  | _ => []
  end.

Definition drawRemotePath := drawPath.

Definition clear : list Call := [clearRect].

(** What one operation contributes to [redrawOperations]. *)
Definition drawOperation (op : DrawingOperation.t) : list Call :=
  match DrawingOperation.path op with
  | Some path => drawPath path
  | None => []
  end.

Definition redrawOperations (operations : list DrawingOperation.t)
    : list Call :=
  clear ++ flat_map drawOperation operations.

(** What is on the canvas after a sequence of calls: the calls made since
    the canvas was last cleared as a whole. *)
Fixpoint since_clear (shown calls : list Call) : list Call :=
  match calls with
  | [] => shown
  | clearRect :: calls' => since_clear [] calls'
  | call :: calls' => since_clear (shown ++ [call]) calls'
  end.

Definition picture (calls : list Call) : list Call := since_clear [] calls.

End Render.

(** ** realtime.ts: presence *)
Module Presence.
Import Canvas Users Realtime Realtime.Supabase.

(** The fields the handlers read from a presence payload (it is untyped:
    either may be missing). *)
Record Payload := mkPayload {
  username : option string;
  color : option string
}.

Definition user_joined (key : string) (presence : Payload)
    : RealtimeMessage.t :=
  RealtimeMessage.mk MessageType.user_joined key (username presence)
    (color presence) None None None None None.

Definition user_left (key : string) : RealtimeMessage.t :=
  RealtimeMessage.mk MessageType.user_left key None None None None None None
    None.

(** [handlePresenceSync(state)]: the messages handed to the callback, in
    order; [state] lists the entries of the presence state in the order
    [Object.entries] yields them. *)
Definition handlePresenceSync (r : RealtimeSync.t)
    (state : list (string * list Payload)) : list RealtimeMessage.t :=
  let users :=
    flat_map (λ entry : string * list Payload,
                match entry.2 with
                | presence :: _ =>
                    if negb (String.eqb entry.1 (RealtimeSync.userId r))
                    then [user_joined entry.1 presence]
                    else []
                | [] => []
                end) state in
  if RealtimeSync.onMessageCallback r then users else [].

(** The handler of presence ['join'] events. *)
Definition presence_join (r : RealtimeSync.t) (key : string)
    (newPresences : list Payload) : list RealtimeMessage.t :=
  if negb (String.eqb key (RealtimeSync.userId r)) then
    match newPresences with
    | user :: _ =>
        if RealtimeSync.onMessageCallback r then [user_joined key user]
        else []
    | [] => []
    end
  else [].

(** The handler of presence ['leave'] events. *)
Definition presence_leave (r : RealtimeSync.t) (key : string)
    : list RealtimeMessage.t :=
  if negb (String.eqb key (RealtimeSync.userId r))
     && RealtimeSync.onMessageCallback r
  then [user_left key]
  else [].

End Presence.

(** ** A replica at work: everything that can happen to it *)
Module Session.
Import Canvas Users Realtime Realtime.Supabase Main.

(** A row of [drawing_operations] once the insert [ins] is stored: the
    columns of the insert, with the [id] and [created_at] the table
    defaults give it. *)
Definition stored (id : string) (created_at : Z) (ins : OperationInsert.t)
    : OperationRow.t :=
  OperationRow.mk id (OperationInsert.room_id ins)
    (OperationInsert.user_id ins) (OperationInsert.operation_type ins)
    (OperationInsert.operation_index ins) (OperationInsert.data_path ins)
    (OperationInsert.data_operationId ins) created_at.

(** One [mousemove]: where the pointer is and what the clock and the random
    generator answer while the listener runs. *)
Record Move := mkMove {
  at_x : Z;
  at_y : Z;
  id_clock : Z;
  id_random : string;
  stamp_clock : Z
}.

Definition point_of (mv : Move) : DrawingPoint.t :=
  DrawingPoint.mk (at_x mv) (at_y mv).

(** An event of the channel, as the handlers registered by [connect] get
    it. *)
Inductive ChannelEvent :=
  | Broadcast (payload : RealtimeMessage.t)
  | PresenceSync (state : list (string * list Presence.Payload))
  | PresenceJoin (key : string) (newPresences : list Presence.Payload)
  | PresenceLeave (key : string).

(** The messages the handlers hand to the message callback. *)
Definition callbacks (r : RealtimeSync.t) (ev : ChannelEvent)
    : list RealtimeMessage.t :=
  match ev with
  | Broadcast payload =>
      option_list (RealtimeSync.broadcast_handler r payload)
  | PresenceSync state => Presence.handlePresenceSync r state
  | PresenceJoin key newPresences =>
      Presence.presence_join r key newPresences
  | PresenceLeave key => Presence.presence_leave r key
  end.

(** Everything that drives a replica: the listeners of
    [setupEventListeners] (but for the width slider, whose value is parsed
    from text), the join, and the events of the channel ([t_id] and [t_ts]
    are the clock readings of the callback, which only a [draw] reads). *)
Inductive Action :=
  | MouseDown (x y : Z)
  | MouseMove (mv : Move)
  | MouseUp (t_id : Z) (rnd : string) (t_ts : Z)
  | MouseLeave (t_id : Z) (rnd : string) (t_ts : Z)
  | BrushTool
  | EraserTool
  | ColorPicker (value : string)
  | UndoBtn
  | RedoBtn
  | ClearBtn
  | ConnectToRoom (replies : JoinReplies)
  | Channel (t_id t_ts : Z) (ev : ChannelEvent).

Definition step (a : Action) (s : CollaborativeCanvas) (net : Net)
    : CollaborativeCanvas * Net :=
  match a with
  | MouseDown x y => (mousedown x y s, net)
  | MouseMove mv =>
      mousemove (at_x mv) (at_y mv) (id_clock mv) (id_random mv)
                (stamp_clock mv) s net
  | MouseUp t_id rnd t_ts => mouseup t_id rnd t_ts s net
  | MouseLeave t_id rnd t_ts => mouseleave t_id rnd t_ts s net
  | BrushTool => (set_canvas (CanvasDrawing.setTool brush (canvas s)) s, net)
  | EraserTool =>
      (set_canvas (CanvasDrawing.setTool eraser (canvas s)) s, net)
  | ColorPicker value =>
      (set_canvas (CanvasDrawing.setColor value (canvas s)) s, net)
  | UndoBtn => undo s net
  | RedoBtn => redo s net
  | ClearBtn => clear s net
  | ConnectToRoom replies => connectToRoom replies s net
  | Channel t_id t_ts ev =>
      (foldl (λ s' message, handleRealtimeMessage t_id t_ts message s') s
             (callbacks (realtime s) ev), net)
  end.

Definition run (actions : list Action) (s : CollaborativeCanvas) (net : Net)
    : CollaborativeCanvas * Net :=
  foldl (λ w a, step a w.1 w.2) (s, net) actions.

(** The calls on the 2D context made while a message is handled. *)
Definition handleRealtimeMessage_calls (message : RealtimeMessage.t)
    (s : CollaborativeCanvas) : list Render.Call :=
  match RealtimeMessage.type message with
  | MessageType.draw =>
      match RealtimeMessage.path message with
      | Some path => Render.drawRemotePath path
      | None => []
      end
  | MessageType.undo =>
      if bool_decide (operations s = []) then []
      else Render.redrawOperations (operations (handleRemoteUndo s))
  | MessageType.redo =>
      if bool_decide (undoneOperations s = []) then []
      else Render.redrawOperations (operations (handleRemoteRedo s))
  | MessageType.clear => Render.clear
  | _ => []
  end.

(** The calls on the 2D context made by the three buttons. *)
Definition undo_calls (s : CollaborativeCanvas) : list Render.Call :=
  if bool_decide (operations s = []) then []
  else Render.redrawOperations (operations (handleRemoteUndo s)).

Definition redo_calls (s : CollaborativeCanvas) : list Render.Call :=
  if bool_decide (undoneOperations s = []) then []
  else Render.redrawOperations (operations (handleRemoteRedo s)).

Definition clear_calls : list Render.Call := Render.clear.


(** The stroke the recorder is building, as a path. *)
Definition path_so_far (c : CanvasDrawing.t) (pts : list DrawingPoint.t)
    : DrawingPath.t :=
  DrawingPath.mk pts (CanvasDrawing.currentColor c)
    (CanvasDrawing.currentWidth c) (CanvasDrawing.currentTool c).

(** The recorder in the middle of a stroke with points [pts]. *)
Definition recording (c : CanvasDrawing.t) (pts : list DrawingPoint.t)
    : CanvasDrawing.t :=
  CanvasDrawing.mk true pts (CanvasDrawing.operations c)
    (CanvasDrawing.currentColor c) (CanvasDrawing.currentWidth c)
    (CanvasDrawing.currentTool c) (CanvasDrawing.userId c).

(** The operation [stopDrawing] builds for the points [pts]. *)
Definition finished (c : CanvasDrawing.t) (pts : list DrawingPoint.t)
    (t_id : Z) (rnd : string) (t_ts : Z) : DrawingOperation.t :=
  DrawingOperation.mk (CanvasDrawing.generateId t_id rnd)
    (CanvasDrawing.type_of_tool (CanvasDrawing.currentTool c))
    (Some (path_so_far c pts)) t_ts (CanvasDrawing.userId c).

(** The gesture of one stroke: press at ([x0], [y0]), move, release. *)
Definition gesture (x0 y0 : Z) (moves : list Move) (t_id : Z) (rnd : string)
    (t_ts : Z) : list Action :=
  MouseDown x0 y0 :: (MouseMove <$> moves) ++ [MouseUp t_id rnd t_ts].

(** What a row of the log says of a stroke: its kind and its path. *)
Definition logged (row : OperationInsert.t) : string * option DrawingPath.t :=
  (OperationInsert.operation_type row, OperationInsert.data_path row).

(** The part of the recorder a stroke in progress lives in: everything but
    the array of finished strokes. *)
Definition pen (c : CanvasDrawing.t)
    : bool * list DrawingPoint.t * string * Z * Tool * string :=
  (CanvasDrawing.isDrawing c, CanvasDrawing.currentPath c,
   CanvasDrawing.currentColor c, CanvasDrawing.currentWidth c,
   CanvasDrawing.currentTool c, CanvasDrawing.userId c).

(** What never changes in a [RealtimeSync]: who it is and where. *)
Definition identity (r : RealtimeSync.t) : string * string * string * string :=
  (RealtimeSync.roomId r, RealtimeSync.userId r, RealtimeSync.username r,
   RealtimeSync.userColor r).

(** The sequence numbers a replica has put on the wire, oldest first. *)
Definition wire_indexes (net : Net) : list (option Z) :=
  RealtimeMessage.operationIndex <$> broadcasts net.

(** Every row written and every payload broadcast is signed by the replica,
    and the payloads are numbered upwards, below the send counter. *)
Definition wire_in_order (r : RealtimeSync.t) (net : Net) : Prop :=
  Forall (λ row, OperationInsert.room_id row = RealtimeSync.roomId r
                 ∧ OperationInsert.user_id row = RealtimeSync.userId r)
         (inserted_operations net)
  ∧ Forall (λ message,
              RealtimeMessage.userId message = RealtimeSync.userId r)
           (broadcasts net)
  ∧ ∃ indexes : list Z,
      wire_indexes net = Some <$> indexes
      ∧ StronglySorted Z.lt indexes
      ∧ Forall (λ i, (0 ≤ i < RealtimeSync.operationIndex r)%Z) indexes.

(** What a row of the log says, but for its index. *)
Definition content (row : OperationInsert.t)
    : string * string * string * option DrawingPath.t * option string :=
  (OperationInsert.room_id row, OperationInsert.user_id row,
   OperationInsert.operation_type row, OperationInsert.data_path row,
   OperationInsert.data_operationId row).

(** The message types whose handling only overwrites: a second delivery
    finds everything already done. *)
Definition repeatable (ty : MessageType.t) : bool :=
  match ty with
  | MessageType.draw | MessageType.undo | MessageType.redo => false
  | _ => true
  end.



(** The payload a sender broadcasts. *)
Definition message_of (via : Stacks.Sender) (r : RealtimeSync.t)
    : RealtimeMessage.t :=
  match via with
  | Stacks.SendDrawing path =>
      RealtimeMessage.mk MessageType.draw (RealtimeSync.userId r)
        (Some (RealtimeSync.username r)) (Some (RealtimeSync.userColor r))
        (Some path) None None None (Some (RealtimeSync.operationIndex r))
  | Stacks.SendUndo operationId =>
      RealtimeMessage.mk MessageType.undo (RealtimeSync.userId r) None None
        None (Some operationId) None None
        (Some (RealtimeSync.operationIndex r))
  | Stacks.SendRedo operationId =>
      RealtimeMessage.mk MessageType.redo (RealtimeSync.userId r) None None
        None (Some operationId) None None
        (Some (RealtimeSync.operationIndex r))
  | Stacks.SendClear =>
      RealtimeMessage.mk MessageType.clear (RealtimeSync.userId r) None None
        None None None None (Some (RealtimeSync.operationIndex r))
  end.

(** How many senders start while the next one awaits its broadcast. *)
Definition overlap (net : Net) : Z :=
  Z.of_nat (default 0%nat (head (overlaps net))).

(** The kind and the path a sender writes to the log. *)
Definition kind_of (via : Stacks.Sender) : string :=
  match via with
  | Stacks.SendDrawing _ => "draw"
  | Stacks.SendUndo _ => "undo"
  | Stacks.SendRedo _ => "redo"
  | Stacks.SendClear => "clear"
  end.

Definition path_of (via : Stacks.Sender) : option DrawingPath.t :=
  match via with
  | Stacks.SendDrawing path => Some path
  | _ => None
  end.

Definition target_of (via : Stacks.Sender) : option string :=
  match via with
  | Stacks.SendUndo operationId | Stacks.SendRedo operationId =>
      Some operationId
  | _ => None
  end.

(** The cursor half of the [mousemove] listener: with [now] the reading of
    [Date.now()], whether [sendCursor] is called and the new
    [lastCursorSendTime]. *)
Definition cursorThrottle : Z := 50.

Definition cursor_half (now lastCursorSendTime : Z) : bool * Z :=
  if (cursorThrottle <? now - lastCursorSendTime)%Z then (true, now)
  else (false, lastCursorSendTime).

(** The clock readings at which a run of [mousemove] events calls
    [sendCursor]; [clock] lists the reading of each event. *)
Fixpoint cursor_sends (lastCursorSendTime : Z) (clock : list Z) : list Z :=
  match clock with
  | [] => []
  | now :: clock' =>
      let '(sent, lastCursorSendTime') :=
        cursor_half now lastCursorSendTime in
      (if sent then [now] else []) ++ cursor_sends lastCursorSendTime' clock'
  end.

(** A fresh replica and a network nothing was sent on. *)
Definition fresh (roomId userId username userColor status : string)
    : CollaborativeCanvas * Net :=
  (Main.new roomId userId username userColor status, empty_net).

End Session.

(** ** Facts about arrays and the two stacks *)
Module JSArrayFacts.
Import JSArray.

Lemma pop_push {A} (arr : list A) (x : A) : pop (push arr x) = (Some x, arr).
Proof. unfold pop, push. by rewrite last_snoc, removelast_last. Qed.

Lemma pop_nil {A} : pop (@nil A) = (None, []).
Proof. reflexivity. Qed.

Lemma pop_Some {A} (arr : list A) (x : A) (rest : list A) :
  pop arr = (Some x, rest) → arr = push rest x.
Proof.
  unfold pop, push. intros [= Hlast <-].
  apply last_Some in Hlast as [l' ->]. by rewrite removelast_last.
Qed.

Lemma pop_None {A} (arr rest : list A) :
  pop arr = (None, rest) → arr = [] ∧ rest = [].
Proof.
  unfold pop. intros [= Hlast <-].
  apply last_None in Hlast as ->. done.
Qed.

Lemma pop_nonempty {A} (arr : list A) :
  arr ≠ [] → ∃ x rest, arr = push rest x ∧ pop arr = (Some x, rest).
Proof.
  intros Hne. destruct (pop arr) as [[x|] rest] eqn:E.
  - exists x, rest. split; [by apply pop_Some | done].
  - apply pop_None in E as [-> _]. done.
Qed.

End JSArrayFacts.

Module StacksFacts.
Import Canvas Users Realtime Realtime.Supabase Main Stacks.

Lemma move_tail_nil {A} (to : list A) : move_tail [] to = ([], to).
Proof. reflexivity. Qed.

Lemma move_tail_push {A} (rest to : list A) (x : A) :
  move_tail (JSArray.push rest x) to = (rest, JSArray.push to x).
Proof. unfold move_tail. by rewrite JSArrayFacts.pop_push. Qed.

Lemma move_tail_cases {A} (from to : list A) :
  (from = [] ∧ move_tail from to = ([], to))
  ∨ (∃ x rest, from = JSArray.push rest x
               ∧ move_tail from to = (rest, JSArray.push to x)).
Proof.
  destruct (decide (from = [])) as [-> | Hne].
  - left. done.
  - right. apply JSArrayFacts.pop_nonempty in Hne as (x & rest & -> & _).
    exists x, rest. split; [done | apply move_tail_push].
Qed.

Lemma move_tail_perm {A} (from to : list A) :
  (move_tail from to).1 ++ (move_tail from to).2 ≡ₚ from ++ to.
Proof.
  destruct (move_tail_cases from to) as [[-> ->] | (x & rest & -> & ->)].
  - done.
  - unfold JSArray.push. simpl. rewrite <- !(assoc_L (++)).
    apply Permutation_app_head, Permutation_app_comm.
Qed.

Lemma stacks_with_realtime send (s : CollaborativeCanvas) (net : Net) :
  stacks (with_realtime send s net).1 = stacks s.
Proof. unfold with_realtime. by destruct (send (realtime s) net). Qed.

Lemma handleRemoteUndo_stacks (s : CollaborativeCanvas) :
  stacks (handleRemoteUndo s) = move_tail (operations s) (undoneOperations s).
Proof.
  unfold stacks, handleRemoteUndo, move_tail. case_bool_decide as Hnil.
  - by rewrite Hnil.
  - destruct (JSArray.pop (operations s)) as [[x|] rest] eqn:E; [done|].
    apply JSArrayFacts.pop_None in E as [? _]. done.
Qed.

Lemma handleRemoteRedo_stacks (s : CollaborativeCanvas) :
  stacks (handleRemoteRedo s)
  = prod_swap (move_tail (undoneOperations s) (operations s)).
Proof.
  unfold stacks, handleRemoteRedo, move_tail. case_bool_decide as Hnil.
  - by rewrite Hnil.
  - destruct (JSArray.pop (undoneOperations s)) as [[x|] rest] eqn:E; [done|].
    apply JSArrayFacts.pop_None in E as [? _]. done.
Qed.

Lemma undo_stacks (s : CollaborativeCanvas) (net : Net) :
  stacks (undo s net).1 = move_tail (operations s) (undoneOperations s).
Proof.
  unfold undo, move_tail. case_bool_decide as Hnil.
  - unfold stacks. simpl. by rewrite Hnil.
  - destruct (JSArray.pop (operations s)) as [[x|] rest] eqn:E.
    + by rewrite stacks_with_realtime.
    + apply JSArrayFacts.pop_None in E as [? _]. done.
Qed.

Lemma redo_stacks (s : CollaborativeCanvas) (net : Net) :
  stacks (redo s net).1
  = prod_swap (move_tail (undoneOperations s) (operations s)).
Proof.
  unfold redo, move_tail. case_bool_decide as Hnil.
  - unfold stacks. simpl. by rewrite Hnil.
  - destruct (JSArray.pop (undoneOperations s)) as [[x|] rest] eqn:E.
    + by rewrite stacks_with_realtime.
    + apply JSArrayFacts.pop_None in E as [? _]. done.
Qed.

(** A redo on an empty redo stack changes nothing and sends nothing. *)
Lemma redo_empty (s : CollaborativeCanvas) (net : Net) :
  undoneOperations s = [] → redo s net = (s, net).
Proof. intros H. unfold redo. by rewrite bool_decide_eq_true_2. Qed.

Lemma handleRemoteRedo_empty (s : CollaborativeCanvas) :
  undoneOperations s = [] → handleRemoteRedo s = s.
Proof. intros H. unfold handleRemoteRedo. by rewrite bool_decide_eq_true_2. Qed.

Lemma with_type_same (message : RealtimeMessage.t) :
  with_type (RealtimeMessage.type message) message = message.
Proof. by destruct message. Qed.

Lemma with_realtime_pair send (s : CollaborativeCanvas) (net : Net) :
  with_realtime send s net
  = (set_realtime (send (realtime s) net).1 s, (send (realtime s) net).2).
Proof. unfold with_realtime. by destruct (send (realtime s) net). Qed.

Lemma with_realtime_net send (s : CollaborativeCanvas) (net : Net) :
  (with_realtime send s net).2 = (send (realtime s) net).2.
Proof. unfold with_realtime. by destruct (send (realtime s) net). Qed.

Lemma with_realtime_state send (s : CollaborativeCanvas) (net : Net) :
  (with_realtime send s net).1 = set_realtime (send (realtime s) net).1 s.
Proof. unfold with_realtime. by destruct (send (realtime s) net). Qed.

(** What a sender leaves: its own increment on the object, its payload on
    the channel if there is one, and one row whose index is the counter as
    the sender finds it after the broadcast. *)
Lemma send_state (via : Sender) (r : RealtimeSync.t) (net : Net) :
  (send via r net).1 = (RealtimeSync.next_operationIndex r).2.
Proof.
  destruct via;
    unfold send, RealtimeSync.sendDrawing, RealtimeSync.sendUndo,
      RealtimeSync.sendRedo, RealtimeSync.sendClear, RealtimeSync.resumed,
      RealtimeSync.channel_send; simpl;
    destruct (RealtimeSync.channel r); simpl; by destruct (overlaps net).
Qed.

Lemma send_broadcasts (via : Sender) (r : RealtimeSync.t) (net : Net) :
  broadcasts (send via r net).2
  = match RealtimeSync.channel r with
    | Some _ => broadcasts net ++ [Session.message_of via r]
    | None => broadcasts net
    end.
Proof.
  destruct via;
    unfold send, RealtimeSync.sendDrawing, RealtimeSync.sendUndo,
      RealtimeSync.sendRedo, RealtimeSync.sendClear, RealtimeSync.resumed,
      RealtimeSync.channel_send; simpl;
    destruct (RealtimeSync.channel r); simpl; by destruct (overlaps net).
Qed.

Lemma send_inserted (via : Sender) (r : RealtimeSync.t) (net : Net) :
  inserted_operations (send via r net).2
  = inserted_operations net
    ++ [OperationInsert.mk (RealtimeSync.roomId r) (RealtimeSync.userId r)
          (Session.kind_of via)
          (RealtimeSync.operationIndex r + 1 + Session.overlap net)
          (Session.path_of via) (Session.target_of via)].
Proof.
  unfold Session.overlap.
  destruct via;
    unfold send, RealtimeSync.sendDrawing, RealtimeSync.sendUndo,
      RealtimeSync.sendRedo, RealtimeSync.sendClear, RealtimeSync.resumed,
      RealtimeSync.channel_send, JSArray.push; simpl;
    destruct (RealtimeSync.channel r); simpl;
    destruct (overlaps net); simpl; by rewrite ?Z.add_0_r.
Qed.

Lemma send_rooms (via : Sender) (r : RealtimeSync.t) (net : Net) :
  inserted_rooms (send via r net).2 = inserted_rooms net.
Proof.
  destruct via;
    unfold send, RealtimeSync.sendDrawing, RealtimeSync.sendUndo,
      RealtimeSync.sendRedo, RealtimeSync.sendClear, RealtimeSync.resumed,
      RealtimeSync.channel_send; simpl;
    destruct (RealtimeSync.channel r); simpl; by destruct (overlaps net).
Qed.

End StacksFacts.

(** ** Undo, redo and clear *)
Module UndoRedo.
Import Canvas Users Realtime Realtime.Supabase Main Stacks StacksFacts.

Lemma stacks_fst (s : CollaborativeCanvas) : (stacks s).1 = operations s.
Proof. reflexivity. Qed.

Lemma stacks_snd (s : CollaborativeCanvas) : (stacks s).2 = undoneOperations s.
Proof. reflexivity. Qed.

Lemma moved_forth_perm (s s' : CollaborativeCanvas) :
  stacks s' = move_tail (operations s) (undoneOperations s) →
  operations s' ++ undoneOperations s' ≡ₚ operations s ++ undoneOperations s.
Proof.
  intros H. rewrite <- (stacks_fst s'), <- (stacks_snd s'), H.
  apply move_tail_perm.
Qed.

Lemma moved_back_perm (s s' : CollaborativeCanvas) :
  stacks s' = prod_swap (move_tail (undoneOperations s) (operations s)) →
  operations s' ++ undoneOperations s' ≡ₚ operations s ++ undoneOperations s.
Proof.
  intros H. rewrite <- (stacks_fst s'), <- (stacks_snd s'), H. simpl.
  rewrite (Permutation_app_comm (operations s)).
  rewrite Permutation_app_comm. apply move_tail_perm.
Qed.

(** C4 — undo/redo inverse law.  For every replica whose active sequence
    [operations] is not empty, a local [undo] immediately followed by a
    local [redo] leaves [operations] equal to its value before the undo,
    element for element, and leaves [undoneOperations] equal as well. *)
Theorem undo_then_redo_restores (s : CollaborativeCanvas) (net : Net) :
  operations s ≠ [] →
  let '(s1, net1) := undo s net in
  let '(s2, _) := redo s1 net1 in
  operations s2 = operations s ∧ undoneOperations s2 = undoneOperations s.
Proof.
  intros Hne.
  destruct (undo s net) as [s1 net1] eqn:Hundo.
  destruct (redo s1 net1) as [s2 net2] eqn:Hredo.
  pose proof (undo_stacks s net) as H1. rewrite Hundo in H1.
  pose proof (redo_stacks s1 net1) as H2. rewrite Hredo in H2.
  simpl in H1, H2.
  apply JSArrayFacts.pop_nonempty in Hne as (x & rest & Hops & _).
  rewrite Hops, move_tail_push in H1. injection H1 as Ho1 Hu1.
  rewrite Ho1, Hu1, move_tail_push in H2. injection H2 as Ho2 Hu2.
  by rewrite Ho2, Hu2, Hops.
Qed.

Lemma undo_then_redo_restores_witness :
  let '(s1, net1) := undo Sample.alice_A_B empty_net in
  let '(s2, _) := redo s1 net1 in
  operations s2 = [Sample.opA] ∧ undoneOperations s2 = [Sample.opB].
Proof.
  apply (undo_then_redo_restores Sample.alice_A_B empty_net).
  discriminate.
Defined.

(** C10 — conservation of operations.  Every undo or redo transition, local
    (the buttons) or remote (the handlers of incoming [undo] / [redo]
    messages), leaves the operations held across [operations] and
    [undoneOperations] the same multiset: it moves the tail of one sequence
    onto the other (or nothing, when that sequence is empty), and no record
    is duplicated, dropped or altered. *)
Theorem undo_redo_conserve_operations (tr : Transition)
    (s : CollaborativeCanvas) (net : Net) :
  let s' := (run tr s net).1 in
  operations s' ++ undoneOperations s'
  ≡ₚ operations s ++ undoneOperations s
  ∧ stacks s'
    = match tr with
      | LocalUndo | RemoteUndo =>
          move_tail (operations s) (undoneOperations s)
      | LocalRedo | RemoteRedo =>
          prod_swap (move_tail (undoneOperations s) (operations s))
      end.
Proof.
  assert (stacks (run tr s net).1
          = match tr with
            | LocalUndo | RemoteUndo =>
                move_tail (operations s) (undoneOperations s)
            | LocalRedo | RemoteRedo =>
                prod_swap (move_tail (undoneOperations s) (operations s))
            end) as Hmove.
  { destruct tr; simpl.
    - apply undo_stacks.
    - apply redo_stacks.
    - apply handleRemoteUndo_stacks.
    - apply handleRemoteRedo_stacks. }
  split; [|exact Hmove].
  destruct tr; simpl in *;
    first [ apply moved_forth_perm; exact Hmove
          | apply moved_back_perm; exact Hmove ].
Qed.

(** C7 — remote undo and redo act on the local tail.  For every incoming
    message of type [undo], whatever operation id (and other fields) it
    carries, the transition pops the tail of the replica's own [operations]
    and pushes it on [undoneOperations]: when [operations] is [rest]
    followed by [x], it becomes [rest] and [undoneOperations] gains [x] at
    its end; when [operations] is empty nothing moves.  For every incoming
    [redo] it pops the tail of [undoneOperations] and pushes it on
    [operations], in the same way.  The result is a function of the two
    local sequences only. *)
Theorem remote_undo_redo_move_local_tail (t_id t_ts : Z)
    (message : RealtimeMessage.t) (s : CollaborativeCanvas) :
  let undone :=
    handleRealtimeMessage t_id t_ts (with_type MessageType.undo message) s in
  let redone :=
    handleRealtimeMessage t_id t_ts (with_type MessageType.redo message) s in
  (∀ rest x, operations s = rest ++ [x] →
             operations undone = rest
             ∧ undoneOperations undone = undoneOperations s ++ [x])
  ∧ (operations s = [] →
     operations undone = [] ∧ undoneOperations undone = undoneOperations s)
  ∧ (∀ rest y, undoneOperations s = rest ++ [y] →
               operations redone = operations s ++ [y]
               ∧ undoneOperations redone = rest)
  ∧ (undoneOperations s = [] →
     operations redone = operations s ∧ undoneOperations redone = []).
Proof.
  intros undone redone.
  pose proof (handleRemoteUndo_stacks s) as Hu.
  pose proof (handleRemoteRedo_stacks s) as Hr.
  change (handleRemoteUndo s) with undone in Hu.
  change (handleRemoteRedo s) with redone in Hr.
  unfold stacks in Hu, Hr.
  split_and!.
  - intros rest x Hops. rewrite Hops in Hu.
    change (rest ++ [x]) with (JSArray.push rest x) in Hu.
    rewrite move_tail_push in Hu. by injection Hu as -> ->.
  - intros Hnil. rewrite Hnil, move_tail_nil in Hu. by injection Hu as -> ->.
  - intros rest y Hund. rewrite Hund in Hr.
    change (rest ++ [y]) with (JSArray.push rest y) in Hr.
    rewrite move_tail_push in Hr. by injection Hr as -> ->.
  - intros Hnil. rewrite Hnil, move_tail_nil in Hr. by injection Hr as -> ->.
Qed.

(** A remote [undo] naming an operation the replica does not hold moves the
    replica's own last stroke; a remote [redo] brings its last undone
    stroke back. *)
Lemma remote_undo_redo_move_local_tail_witness :
  let undone :=
    handleRealtimeMessage 0 0
      (with_type MessageType.undo Sample.bob_draw) Sample.alice_A_B in
  let redone :=
    handleRealtimeMessage 0 0
      (with_type MessageType.redo Sample.bob_draw) Sample.alice_A_B in
  (operations undone = []
   ∧ undoneOperations undone = [Sample.opB; Sample.opA])
  ∧ (operations redone = [Sample.opA; Sample.opB]
     ∧ undoneOperations redone = []).
Proof.
  destruct (remote_undo_redo_move_local_tail 0 0 Sample.bob_draw
              Sample.alice_A_B) as (Hundo & _ & Hredo & _).
  split.
  - exact (Hundo [] Sample.opA eq_refl).
  - exact (Hredo [] Sample.opB eq_refl).
Defined.

(** C5 — clear absorption.  A clear, pressed locally or received as a
    message, leaves [operations] and [undoneOperations] both empty, whatever
    they held; a redo attempted right after it, local or remote, changes
    nothing (and sends nothing). *)
Theorem clear_empties_both_stacks (t_id t_ts : Z)
    (message : RealtimeMessage.t) (s : CollaborativeCanvas) (net : Net) :
  let '(here, net') := clear s net in
  let there :=
    handleRealtimeMessage t_id t_ts (with_type MessageType.clear message) s in
  stacks here = ([], []) ∧ stacks there = ([], [])
  ∧ redo here net' = (here, net') ∧ redo there net = (there, net)
  ∧ handleRemoteRedo here = here ∧ handleRemoteRedo there = there.
Proof.
  destruct (clear s net) as [here net'] eqn:Hclear.
  assert (stacks here = ([], [])) as Hhere.
  { pose proof (stacks_with_realtime RealtimeSync.sendClear
                  (set_undoneOperations [] (assign_operations [] s)) net) as H.
    unfold clear in Hclear. by rewrite Hclear in H. }
  injection Hhere as Ho Hu. simpl.
  split_and!; try done.
  - unfold stacks. by rewrite Ho, Hu.
  - by apply redo_empty.
  - by apply handleRemoteRedo_empty.
Qed.

End UndoRedo.

(** ** Delivery of messages *)
Module Delivery.
Import Canvas Users Realtime Realtime.Supabase Main Stacks StacksFacts.

Lemma push_neq {A} (l : list A) (x : A) : JSArray.push l x ≠ l.
Proof.
  unfold JSArray.push. intros H. apply (f_equal length) in H.
  rewrite length_app in H. simpl in H. lia.
Qed.

Lemma move_tail_fixed {A} (from to : list A) :
  move_tail from to = (from, to) ↔ from = [].
Proof.
  destruct (move_tail_cases from to) as [[-> ->] | (x & rest & -> & ->)].
  - done.
  - split.
    + intros [= H _]. symmetry in H. by apply push_neq in H.
    + intros H. apply (f_equal length) in H. unfold JSArray.push in H.
      rewrite length_app in H. simpl in H. lia.
Qed.

(** A finished local stroke empties the redo stack. *)
Lemma mouseup_stroke_clears_undone (t_id : Z) (rnd : string) (t_ts : Z)
    (s : CollaborativeCanvas) (net : Net) :
  isMouseDown s = true →
  CanvasDrawing.isDrawing (canvas s) = true →
  CanvasDrawing.currentPath (canvas s) ≠ [] →
  undoneOperations (mouseup t_id rnd t_ts s net).1 = [].
Proof.
  intros Hdown Hdraw Hpath. unfold mouseup, CanvasDrawing.stopDrawing.
  rewrite Hdown, Hdraw. simpl. rewrite bool_decide_eq_false_2 by done.
  destruct (ops_push _ _ _) as [ref shared]. simpl.
  by rewrite StacksFacts.with_realtime_pair.
Qed.

(** An incoming [draw] leaves the redo stack as it finds it. *)
Lemma remote_draw_undone (t_id t_ts : Z) (message : RealtimeMessage.t)
    (s : CollaborativeCanvas) :
  undoneOperations
    (handleRealtimeMessage t_id t_ts (with_type MessageType.draw message) s)
  = undoneOperations s.
Proof.
  unfold handleRealtimeMessage, with_type. simpl.
  by destruct (RealtimeMessage.path message).
Qed.

(** C2 — new strokes and the redo stack, at the input where the program
    departs from the rule: a replica holding [opB] on its redo stack
    receives a [draw] from another user; the stroke is appended to
    [operations] and the redo stack still holds [opB]. *)
Theorem remote_draw_keeps_redo_stack :
  let s := handleRealtimeMessage 1700000001000 1700000001000
             Sample.bob_draw Sample.alice_A_B in
  length (operations s) = 2%nat ∧ undoneOperations s = [Sample.opB].
Proof. split; reflexivity. Qed.

(** C3, as the specification states it, does not hold: the same [draw]
    message delivered a second time (even at the same clock reading, hence
    with the same id) is applied again. *)
Lemma redelivered_draw_applied_again :
  let once := handleRealtimeMessage 1700000001000 1700000001000
                Sample.bob_draw Sample.alice_connected in
  let twice := handleRealtimeMessage 1700000001000 1700000001000
                 Sample.bob_draw once in
  stacks twice ≠ stacks once.
Proof. discriminate. Qed.

(** C3 (amended) — redelivery.  The replica keeps no record of the messages
    it has applied.  Delivering a message a second time leaves
    [operations] and [undoneOperations] as the first delivery left them
    exactly when the message is a [draw] without a path, an [undo] that
    finds [operations] empty, a [redo] that finds [undoneOperations] empty,
    or a message of another type ([clear], [cursor], presence); a [draw]
    with a path is appended once more, so that [operations] ends with two
    records of the stroke, and an [undo] / [redo] moves one more record
    from the tail of one sequence to the tail of the other. *)
Theorem redelivery_noop_iff (t_id t_ts t_id' t_ts' : Z)
    (message : RealtimeMessage.t) (s : CollaborativeCanvas) :
  let once := handleRealtimeMessage t_id t_ts message s in
  let twice := handleRealtimeMessage t_id' t_ts' message once in
  let drawn (now_id now_ts : Z) (path : DrawingPath.t) :=
    DrawingOperation.mk
      (RealtimeMessage.userId message +:+ "-" +:+ pretty now_id)
      (CanvasDrawing.type_of_tool (DrawingPath.tool path))
      (Some path) now_ts (RealtimeMessage.userId message) in
  (stacks twice = stacks once ↔ redelivery_noop message once = true)
  ∧ (∀ path, RealtimeMessage.type message = MessageType.draw →
             RealtimeMessage.path message = Some path →
             operations twice
             = operations s
               ++ [drawn t_id t_ts path; drawn t_id' t_ts' path]
             ∧ undoneOperations twice = undoneOperations s)
  ∧ (∀ rest x, RealtimeMessage.type message = MessageType.undo →
               operations once = rest ++ [x] →
               operations twice = rest
               ∧ undoneOperations twice = undoneOperations once ++ [x])
  ∧ (∀ rest y, RealtimeMessage.type message = MessageType.redo →
               undoneOperations once = rest ++ [y] →
               operations twice = operations once ++ [y]
               ∧ undoneOperations twice = rest).
Proof.
  intros once twice drawn. split_and!.
  - subst once twice. rewrite <- (with_type_same message).
    unfold redelivery_noop, handleRealtimeMessage, with_type.
    destruct (RealtimeMessage.type message) eqn:Hty; simpl.
    + destruct (RealtimeMessage.path message) as [path|]; simpl; [|done].
      split; [|done]. intros [= H]. by apply push_neq in H.
    + split; [done|]. intros _.
      destruct (RealtimeMessage.cursorX message),
               (RealtimeMessage.cursorY message); done.
    + rewrite (handleRemoteUndo_stacks (handleRemoteUndo s)).
      rewrite bool_decide_eq_true. apply move_tail_fixed.
    + rewrite (handleRemoteRedo_stacks (handleRemoteRedo s)).
      rewrite bool_decide_eq_true.
      rewrite <- (move_tail_fixed _ (operations (handleRemoteRedo s))).
      unfold stacks. destruct (move_tail _ _) as [u o]. simpl.
      split; intros [= H1 H2]; by rewrite H1, H2.
    + done.
    + split; [done|]. intros _.
      destruct (RealtimeMessage.username message),
               (RealtimeMessage.color message); try done.
      by destruct (_ || _).
    + done.
  - intros path Hty Hpath. subst once twice drawn.
    unfold handleRealtimeMessage. rewrite Hty, Hpath. simpl.
    unfold JSArray.push. by rewrite <- app_assoc.
  - intros rest x Hty Hops.
    pose proof (handleRemoteUndo_stacks once) as H.
    assert (twice = handleRemoteUndo once) as ->.
    { subst twice. unfold handleRealtimeMessage. by rewrite Hty. }
    unfold stacks in H. rewrite Hops in H.
    change (rest ++ [x]) with (JSArray.push rest x) in H.
    rewrite move_tail_push in H. by injection H as -> ->.
  - intros rest y Hty Hund.
    pose proof (handleRemoteRedo_stacks once) as H.
    assert (twice = handleRemoteRedo once) as ->.
    { subst twice. unfold handleRealtimeMessage. by rewrite Hty. }
    unfold stacks in H. rewrite Hund in H.
    change (rest ++ [y]) with (JSArray.push rest y) in H.
    rewrite move_tail_push in H. by injection H as -> ->.
Qed.

(** A stroke delivered twice is held twice; an [undo] delivered twice to a
    replica holding two strokes takes both. *)
Lemma redelivery_noop_iff_witness :
  let drawn_twice :=
    handleRealtimeMessage 1700000002000 1700000002000 Sample.bob_draw
      (handleRealtimeMessage 1700000001000 1700000001000 Sample.bob_draw
         Sample.alice_A_B) in
  let undo := with_type MessageType.undo Sample.bob_draw in
  let undone_twice :=
    handleRealtimeMessage 0 0 undo
      (handleRealtimeMessage 0 0 undo
         (set_operations [Sample.opB; Sample.opA] Sample.alice_connected)) in
  (operations drawn_twice
   = [Sample.opA;
      DrawingOperation.mk "user-bob-1700000001000" "draw" (Some Sample.stroke)
        1700000001000 "user-bob";
      DrawingOperation.mk "user-bob-1700000002000" "draw" (Some Sample.stroke)
        1700000002000 "user-bob"]
   ∧ undoneOperations drawn_twice = [Sample.opB])
  ∧ (operations undone_twice = []
     ∧ undoneOperations undone_twice = [Sample.opA; Sample.opB]).
Proof.
  split.
  - destruct (redelivery_noop_iff 1700000001000 1700000001000 1700000002000
                1700000002000 Sample.bob_draw Sample.alice_A_B)
      as (_ & Hdraw & _).
    exact (Hdraw Sample.stroke eq_refl eq_refl).
  - destruct (redelivery_noop_iff 0 0 0 0
                (with_type MessageType.undo Sample.bob_draw)
                (set_operations [Sample.opB; Sample.opA]
                   Sample.alice_connected))
      as (_ & _ & Hundo & _).
    exact (Hundo [] Sample.opB eq_refl eq_refl).
Defined.

(** C9 — no echo.  For every incoming broadcast payload whose [userId] is the
    receiving replica's own, the handler registered by [connect] does not
    invoke the message callback, and the replica is left exactly as it was. *)
Theorem own_broadcast_is_ignored (t_id t_ts : Z)
    (payload : RealtimeMessage.t) (s : CollaborativeCanvas) :
  RealtimeMessage.userId payload = RealtimeSync.userId (realtime s) →
  RealtimeSync.broadcast_handler (realtime s) payload = None
  ∧ broadcast_handler t_id t_ts payload s = s.
Proof.
  intros Hown.
  assert (RealtimeSync.broadcast_handler (realtime s) payload = None) as H.
  { unfold RealtimeSync.broadcast_handler.
    by rewrite Hown, String.eqb_refl, andb_false_r. }
  split; [done|]. unfold broadcast_handler. by rewrite H.
Qed.

Lemma own_broadcast_is_ignored_witness :
  RealtimeSync.broadcast_handler (realtime Sample.alice_A_B) Sample.alice_echo
  = None
  ∧ broadcast_handler 1700000001000 1700000001000 Sample.alice_echo
      Sample.alice_A_B
    = Sample.alice_A_B.
Proof.
  apply (own_broadcast_is_ignored 1700000001000 1700000001000
           Sample.alice_echo Sample.alice_A_B).
  reflexivity.
Defined.

End Delivery.

(** ** What goes on the wire *)
Module Wire.
Import Canvas Users Realtime Realtime.Supabase Main Stacks StacksFacts.


(** Two senders that overlap: the second starts while the first awaits its
    broadcast.  The payloads carry 0 and 1; both rows carry 2, the counter
    as both find it when their inserts are issued. *)
Lemma overlapping_sends_write_one_index :
  let r := realtime Sample.alice_connected in
  let first := RealtimeSync.sendClear r (mkNet [] [] [] [1%nat]) in
  let second := RealtimeSync.sendClear first.1 first.2 in
  RealtimeMessage.operationIndex <$> broadcasts second.2 = [Some 0; Some 1]
  ∧ OperationInsert.operation_index <$> inserted_operations second.2 = [2; 2].
Proof. split; reflexivity. Qed.



End Wire.

(** ** Joining a room *)
Module Join.
Import Canvas Users Realtime Realtime.Supabase Main Stacks StacksFacts.

(** After a join whose two requests were answered, [operations] is what
    [loadOperations] made of the reply, whatever the replica held before. *)
Lemma connectToRoom_operations (existing : option string)
    (reply : QueryResult (list OperationRow.t)) (s : CollaborativeCanvas)
    (net : Net) :
  operations (connectToRoom (mkReplies (Fulfilled existing) (Fulfilled reply))
                s net).1
  = RealtimeSync.loadOperations reply.
Proof. reflexivity. Qed.

(** Two replicas that get the same reply hold the same [operations]. *)
Lemma connectToRoom_same_reply (existing existing' : option string)
    (reply : QueryResult (list OperationRow.t))
    (s s' : CollaborativeCanvas) (net net' : Net) :
  operations (connectToRoom (mkReplies (Fulfilled existing) (Fulfilled reply))
                s net).1
  = operations (connectToRoom
                  (mkReplies (Fulfilled existing') (Fulfilled reply))
                  s' net').1.
Proof. reflexivity. Qed.

(** The join turns each row of the reply into one entry, in order. *)
Lemma loadOperations_rows (rows : list OperationRow.t) :
  RealtimeSync.loadOperations (mkResult (Some rows) None)
  = map RealtimeSync.row_to_operation rows.
Proof. reflexivity. Qed.

Lemma fold_strokes (rows : list OperationRow.t) (st : Spec.Folded) :
  forallb is_stroke rows = true →
  (foldl Spec.fold_step st rows).1
  = st.1 ++ map RealtimeSync.row_to_operation rows.
Proof.
  revert st. induction rows as [|row rows IH]; intros [active undone] Hall.
  - simpl. by rewrite app_nil_r.
  - simpl in Hall. apply andb_true_iff in Hall as [Hrow Hrest].
    simpl. unfold is_stroke in Hrow. rewrite Hrow.
    rewrite IH by done. simpl. by rewrite <- app_assoc.
Qed.

(** On a log of strokes only, the join agrees with the fold rule. *)
Lemma loadOperations_strokes (rows : list OperationRow.t) :
  forallb is_stroke rows = true →
  RealtimeSync.loadOperations (mkResult (Some rows) None)
  = (Spec.fold_rule rows).1.
Proof.
  intros Hall. unfold Spec.fold_rule. by rewrite fold_strokes.
Qed.

(** C1 — join replay, at the input where the program departs from the fold
    rule: the log of the room holds a stroke followed by a [clear].  The
    fold rule yields an empty active sequence; the join yields two entries,
    the stroke and an entry made of the [clear] row. *)
Theorem join_keeps_cleared_stroke :
  let log := [Sample.rowA; Sample.rowClear] in
  operations (Sample.join_with (mkResult (Some log) None))
  = [RealtimeSync.row_to_operation Sample.rowA;
     RealtimeSync.row_to_operation Sample.rowClear]
  ∧ (Spec.fold_rule log).1 = [].
Proof. split; reflexivity. Qed.

(** The same for a stroke followed by its [undo]: the fold rule moves the
    stroke to [undone], the join keeps it and adds an entry for the [undo]
    row. *)
Lemma join_keeps_undone_stroke :
  let log := [Sample.rowA; Sample.rowUndo] in
  operations (Sample.join_with (mkResult (Some log) None))
  = [RealtimeSync.row_to_operation Sample.rowA;
     RealtimeSync.row_to_operation Sample.rowUndo]
  ∧ Spec.fold_rule log = ([], [RealtimeSync.row_to_operation Sample.rowA]).
Proof. split; reflexivity. Qed.


(** A join whose [connect] throws has already assigned the loaded history:
    the status reads [Connection Error] and [operations] is the history,
    not what the replica held before. *)
Lemma join_error_after_history :
  let replies :=
    mkJoinReplies (Fulfilled (Some "default-room")) (Fulfilled ())
      (Fulfilled (mkResult (Some [Sample.rowA]) None))
      (RealtimeSync.SubscribeThrows "WebSocket is closed") in
  let s := (connectToRoom replies Sample.alice empty_net).1 in
  connectionStatus s = "Connection Error"
  ∧ operations Sample.alice = []
  ∧ operations s = [RealtimeSync.row_to_operation Sample.rowA].
Proof. split_and!; reflexivity. Qed.


End Join.

(** ** Strokes drawn with the mouse *)
Module Gesture.
Import Canvas Users Realtime Realtime.Supabase Main Session StacksFacts.

Lemma run_cons (a : Action) (actions : list Action)
    (s : CollaborativeCanvas) (net : Net) :
  run (a :: actions) s net = run actions (step a s net).1 (step a s net).2.
Proof. unfold run. simpl. by destruct (step a s net). Qed.

Lemma run_app (before after : list Action) (s : CollaborativeCanvas)
    (net : Net) :
  run (before ++ after) s net
  = run after (run before s net).1 (run before s net).2.
Proof.
  unfold run. rewrite foldl_app. by destruct (foldl _ _ before).
Qed.

Lemma mousemove_recording (mv : Move) (c : CanvasDrawing.t)
    (pts : list DrawingPoint.t) (s : CollaborativeCanvas) (net : Net) :
  isMouseDown s = true → canvas s = recording c pts →
  step (MouseMove mv) s net
  = with_realtime
      (RealtimeSync.sendDrawing (path_so_far c (pts ++ [point_of mv])))
      (set_canvas (recording c (pts ++ [point_of mv])) s) net.
Proof.
  intros Hdown Hc. unfold step, mousemove, CanvasDrawing.draw.
  by rewrite Hdown, Hc.
Qed.

(** A drag: only the recorder, the send counter and the network change. *)
Lemma drag_recording (moves : list Move) (c : CanvasDrawing.t) :
  ∀ (pts : list DrawingPoint.t) (s : CollaborativeCanvas) (net : Net),
    isMouseDown s = true → canvas s = recording c pts →
    ∃ r, (run (MouseMove <$> moves) s net).1
         = set_realtime r
             (set_canvas (recording c (pts ++ (point_of <$> moves))) s).
Proof.
  induction moves as [|mv moves IH]; intros pts s net Hdown Hc.
  - exists (realtime s). simpl. rewrite app_nil_r, <- Hc. by destruct s.
  - rewrite fmap_cons, run_cons, (mousemove_recording mv c pts) by done.
    unfold with_realtime.
    destruct (RealtimeSync.sendDrawing _ (realtime _) net) as [r1 net1].
    simpl.
    destruct (IH (pts ++ [point_of mv])
                 (set_realtime r1 (set_canvas
                    (recording c (pts ++ [point_of mv])) s)) net1)
      as [r Hr]; [done..|].
    exists r. rewrite Hr. by rewrite <- app_assoc.
Qed.

Lemma mouseup_recording (t_id : Z) (rnd : string) (t_ts : Z)
    (c : CanvasDrawing.t) (pts : list DrawingPoint.t)
    (s : CollaborativeCanvas) (net : Net) :
  isMouseDown s = true → canvas s = recording c pts → pts ≠ [] →
  let op := finished c pts t_id rnd t_ts in
  let s' := (mouseup t_id rnd t_ts s net).1 in
  operations s'
  = operations s ++ match CanvasDrawing.operations c with
                    | Shared => [op; op]
                    | Own _ => [op]
                    end
  ∧ undoneOperations s' = []
  ∧ isMouseDown s' = false
  ∧ CanvasDrawing.isDrawing (canvas s') = false
  ∧ CanvasDrawing.currentPath (canvas s') = []
  ∧ CanvasDrawing.operations (canvas s')
    = match CanvasDrawing.operations c with
      | Shared => Shared
      | Own l => Own (l ++ [op])
      end.
Proof.
  intros Hdown Hc Hpts. unfold mouseup, CanvasDrawing.stopDrawing.
  rewrite Hdown, Hc. simpl. rewrite bool_decide_eq_false_2 by done.
  unfold ops_push, JSArray.push.
  destruct (CanvasDrawing.operations c) as [|l]; simpl;
    rewrite with_realtime_pair; simpl; rewrite <- ?app_assoc; done.
Qed.

Lemma gesture_result (x0 y0 : Z) (moves : list Move) (t_id : Z)
    (rnd : string) (t_ts : Z) (s : CollaborativeCanvas) (net : Net) :
  let pts := DrawingPoint.mk x0 y0 :: (point_of <$> moves) in
  let op := finished (canvas s) pts t_id rnd t_ts in
  let s' := (run (gesture x0 y0 moves t_id rnd t_ts) s net).1 in
  operations s'
  = operations s ++ match CanvasDrawing.operations (canvas s) with
                    | Shared => [op; op]
                    | Own _ => [op]
                    end
  ∧ undoneOperations s' = []
  ∧ isMouseDown s' = false
  ∧ CanvasDrawing.isDrawing (canvas s') = false
  ∧ CanvasDrawing.currentPath (canvas s') = []
  ∧ CanvasDrawing.operations (canvas s')
    = match CanvasDrawing.operations (canvas s) with
      | Shared => Shared
      | Own l => Own (l ++ [op])
      end.
Proof.
  intros pts op s'. subst s'. unfold gesture.
  rewrite run_cons, run_app.
  change (step (MouseDown x0 y0) s net) with (mousedown x0 y0 s, net).
  cbn [fst snd].
  destruct (drag_recording moves (canvas s) [DrawingPoint.mk x0 y0]
              (mousedown x0 y0 s) net) as [r Hr]; [done..|].
  rewrite Hr. unfold run at 1. cbn [foldl step].
  set (s1 := set_realtime r _).
  set (net1 := (run (MouseMove <$> moves) (mousedown x0 y0 s) net).2).
  assert (pts ≠ []) as Hpts by done.
  exact (mouseup_recording t_id rnd t_ts (canvas s) pts s1 net1
           eq_refl eq_refl Hpts).
Qed.

Lemma sendDrawing_logged (path : DrawingPath.t) (r : RealtimeSync.t)
    (net : Net) :
  logged <$> inserted_operations (RealtimeSync.sendDrawing path r net).2
  = (logged <$> inserted_operations net) ++ [("draw", Some path)].
Proof.
  change (RealtimeSync.sendDrawing path r net)
    with (Stacks.send (Stacks.SendDrawing path) r net).
  by rewrite send_inserted, fmap_app.
Qed.

(** A drag writes one [draw] row per move, holding the path so far. *)
Lemma drag_logged (moves : list Move) (c : CanvasDrawing.t) :
  ∀ (pts : list DrawingPoint.t) (s : CollaborativeCanvas) (net : Net),
    isMouseDown s = true → canvas s = recording c pts →
    logged <$> inserted_operations (run (MouseMove <$> moves) s net).2
    = (logged <$> inserted_operations net)
      ++ ((λ k, ("draw",
                 Some (path_so_far c (pts ++ take k (point_of <$> moves)))))
            <$> seq 1 (length moves)).
Proof.
  induction moves as [|mv moves IH]; intros pts s net Hdown Hc.
  - simpl. by rewrite app_nil_r.
  - rewrite fmap_cons, run_cons, (mousemove_recording mv c pts) by done.
    rewrite with_realtime_state, with_realtime_net.
    rewrite (IH (pts ++ [point_of mv])) by done.
    rewrite sendDrawing_logged, <- app_assoc. f_equal.
    simpl length. rewrite <- cons_seq, fmap_cons, <- (fmap_S_seq 1).
    rewrite <- list_fmap_compose. simpl. rewrite take_0. f_equal.
    apply list_fmap_ext. intros _ k _. simpl. by rewrite <- app_assoc.
Qed.

Lemma mouseup_logged (t_id : Z) (rnd : string) (t_ts : Z)
    (c : CanvasDrawing.t) (pts : list DrawingPoint.t)
    (s : CollaborativeCanvas) (net : Net) :
  isMouseDown s = true → canvas s = recording c pts → pts ≠ [] →
  logged <$> inserted_operations (mouseup t_id rnd t_ts s net).2
  = (logged <$> inserted_operations net)
    ++ [("draw", Some (path_so_far c pts))].
Proof.
  intros Hdown Hc Hpts. unfold mouseup, CanvasDrawing.stopDrawing.
  rewrite Hdown, Hc. simpl. rewrite bool_decide_eq_false_2 by done.
  destruct (ops_push _ _ _) as [ref shared]. simpl.
  rewrite with_realtime_pair. simpl.
  by rewrite sendDrawing_logged.
Qed.

Lemma detach_own (old : list DrawingOperation.t) (c : CanvasDrawing.t) :
  ∃ l, CanvasDrawing.operations (CanvasDrawing.detach old c) = Own l.
Proof.
  unfold CanvasDrawing.detach.
  destruct (CanvasDrawing.operations c) as [|l] eqn:E; simpl; eauto.
Qed.

Lemma finished_detach (old : list DrawingOperation.t) (c : CanvasDrawing.t)
    (pts : list DrawingPoint.t) (t_id : Z) (rnd : string) (t_ts : Z) :
  finished (CanvasDrawing.detach old c) pts t_id rnd t_ts
  = finished c pts t_id rnd t_ts.
Proof.
  unfold CanvasDrawing.detach. by destruct (CanvasDrawing.operations c).
Qed.

(** X1 — a stroke holds every point of the gesture.  Pressing the mouse at
    a point, moving it through any number of points and releasing it pushes
    on [operations] one operation whose path is the pressed point followed
    by the points moved through, in order, with the colour, width and tool
    of the recorder and the type of that tool; the redo stack is emptied and
    the recorder is idle again.  The operation is pushed once when the
    recorder holds an array of its own and twice when it holds the
    application's array. *)
Theorem stroke_holds_points_of_gesture (x0 y0 : Z) (moves : list Move)
    (t_id : Z) (rnd : string) (t_ts : Z) (s : CollaborativeCanvas)
    (net : Net) :
  let pts := DrawingPoint.mk x0 y0 :: (point_of <$> moves) in
  let op := finished (canvas s) pts t_id rnd t_ts in
  let s' := (run (gesture x0 y0 moves t_id rnd t_ts) s net).1 in
  operations s'
  = operations s ++ match CanvasDrawing.operations (canvas s) with
                    | Shared => [op; op]
                    | Own _ => [op]
                    end
  ∧ undoneOperations s' = []
  ∧ isMouseDown s' = false
  ∧ CanvasDrawing.isDrawing (canvas s') = false
  ∧ CanvasDrawing.currentPath (canvas s') = [].
Proof.
  intros pts op s'.
  destruct (gesture_result x0 y0 moves t_id rnd t_ts s net)
    as (Ho & Hu & Hd & Hi & Hp & _).
  by split_and!.
Qed.

(** X2 — after a join a stroke is recorded twice.  [connectToRoom] hands its
    history array to the recorder, which keeps that very array; from then on
    [stopDrawing] and the [mouseup] listener push the same finished stroke
    on the same array, so a stroke drawn after an answered join appears
    twice at the tail of [operations]. *)
Theorem stroke_after_join_recorded_twice (existing : option string)
    (reply : QueryResult (list OperationRow.t)) (x0 y0 : Z)
    (moves : list Move) (t_id : Z) (rnd : string) (t_ts : Z)
    (s : CollaborativeCanvas) (net : Net) :
  let joined :=
    connectToRoom (mkReplies (Fulfilled existing) (Fulfilled reply)) s net in
  let pts := DrawingPoint.mk x0 y0 :: (point_of <$> moves) in
  let op := finished (canvas s) pts t_id rnd t_ts in
  operations (run (gesture x0 y0 moves t_id rnd t_ts) joined.1 joined.2).1
  = RealtimeSync.loadOperations reply ++ [op; op].
Proof.
  intros joined pts op.
  destruct (gesture_result x0 y0 moves t_id rnd t_ts joined.1 joined.2)
    as (Ho & _).
  rewrite Ho. subst joined op. simpl. f_equal.
  unfold finished, path_so_far, CanvasDrawing.detach.
  by destruct (CanvasDrawing.operations (canvas s)).
Qed.

(** X3 — after a clear a stroke is recorded once.  A clear, pressed locally
    or received, gives the application a new array and leaves the old one to
    the recorder; the next stroke is the only element of [operations]. *)
Theorem stroke_after_clear_recorded_once (t_c t_c' : Z)
    (message : RealtimeMessage.t) (x0 y0 : Z) (moves : list Move) (t_id : Z)
    (rnd : string) (t_ts : Z) (s : CollaborativeCanvas) (net : Net) :
  let pts := DrawingPoint.mk x0 y0 :: (point_of <$> moves) in
  let op := finished (canvas s) pts t_id rnd t_ts in
  let here := clear s net in
  let there :=
    handleRealtimeMessage t_c t_c'
      (Stacks.with_type MessageType.clear message) s in
  operations (run (gesture x0 y0 moves t_id rnd t_ts) here.1 here.2).1 = [op]
  ∧ operations (run (gesture x0 y0 moves t_id rnd t_ts) there net).1 = [op].
Proof.
  intros pts op here there.
  assert (∀ s1 : CollaborativeCanvas,
            canvas s1 = CanvasDrawing.detach (operations s) (canvas s) →
            operations s1 = [] →
            ∀ net1, operations
                      (run (gesture x0 y0 moves t_id rnd t_ts) s1 net1).1
                    = [op]) as Hcleared.
  { intros s1 Hc Hops net1.
    destruct (gesture_result x0 y0 moves t_id rnd t_ts s1 net1) as (Ho & _).
    rewrite Ho, Hc, Hops.
    destruct (detach_own (operations s) (canvas s)) as [l ->].
    by rewrite finished_detach. }
  split; apply Hcleared; try done;
    subst here; unfold clear; by rewrite with_realtime_state.
Qed.

(** The rows a gesture writes. *)
Lemma gesture_logs_rows (x0 y0 : Z) (moves : list Move) (t_id : Z)
    (rnd : string) (t_ts : Z) (s : CollaborativeCanvas) (net : Net) :
  let pts := DrawingPoint.mk x0 y0 :: (point_of <$> moves) in
  logged
    <$> inserted_operations (run (gesture x0 y0 moves t_id rnd t_ts) s net).2
  = (logged <$> inserted_operations net)
    ++ ((λ k, ("draw", Some (path_so_far (canvas s) (take (S k) pts))))
          <$> seq 1 (length moves))
    ++ [("draw", Some (path_so_far (canvas s) pts))].
Proof.
  intros pts. unfold gesture. rewrite run_cons, run_app.
  change (step (MouseDown x0 y0) s net) with (mousedown x0 y0 s, net).
  cbn [fst snd].
  destruct (drag_recording moves (canvas s) [DrawingPoint.mk x0 y0]
              (mousedown x0 y0 s) net) as [r Hr]; [done..|].
  rewrite Hr. unfold run at 1. cbn [foldl step].
  assert (pts ≠ []) as Hpts by done.
  rewrite (mouseup_logged t_id rnd t_ts (canvas s) pts) by done.
  cbn [fst snd].
  rewrite (drag_logged moves (canvas s) [DrawingPoint.mk x0 y0]) by done.
  by rewrite <- app_assoc.
Qed.

(** X4 — every move of a stroke is written to the log.  During a gesture of
    [n] moves the replica inserts [n + 1] rows of type [draw], whatever the
    tool: one per move, holding the path from the pressed point up to that
    move, and one on release, holding the whole path (which the row of the
    last move holds already). *)
Theorem gesture_logs_every_prefix (x0 y0 : Z) (moves : list Move) (t_id : Z)
    (rnd : string) (t_ts : Z) (s : CollaborativeCanvas) (net : Net) :
  let pts := DrawingPoint.mk x0 y0 :: (point_of <$> moves) in
  logged
    <$> inserted_operations (run (gesture x0 y0 moves t_id rnd t_ts) s net).2
  = (logged <$> inserted_operations net)
    ++ ((λ k, ("draw", Some (path_so_far (canvas s) (take (S k) pts))))
          <$> seq 1 (length moves))
    ++ [("draw", Some (path_so_far (canvas s) pts))].
Proof. apply gesture_logs_rows. Qed.

(** X5 — a release is reported once.  A second [mouseup] (or the
    [mouseleave] that follows a release) finds the mouse up and changes
    nothing: no stroke is pushed, nothing is sent. *)
Theorem second_mouseup_changes_nothing (t_id t_id' : Z) (rnd rnd' : string)
    (t_ts t_ts' : Z) (s : CollaborativeCanvas) (net : Net) :
  let released := mouseup t_id rnd t_ts s net in
  mouseup t_id' rnd' t_ts' released.1 released.2 = released
  ∧ mouseleave t_id' rnd' t_ts' released.1 released.2 = released.
Proof.
  assert (∀ w : CollaborativeCanvas * Net,
            isMouseDown w.1 = false →
            mouseup t_id' rnd' t_ts' w.1 w.2 = w) as Hup.
  { intros [s1 net1] Hdown. simpl in *. unfold mouseup. rewrite Hdown.
    destruct s1. simpl in *. by subst. }
  intros released. split; apply Hup; subst released; unfold mouseup;
    by destruct (if isMouseDown s then _ else _).
Qed.

(** X6 — a click leaves a stroke that cannot be seen.  Pressing and
    releasing the mouse without moving it records a stroke of a single
    point, writes it to the log as a [draw] row like any other stroke, and
    the drawing routine draws nothing for it: [drawPath] returns at once on
    a path of fewer than two points. *)
Theorem click_records_invisible_stroke (x0 y0 : Z) (t_id : Z) (rnd : string)
    (t_ts : Z) (s : CollaborativeCanvas) (net : Net) :
  let op := finished (canvas s) [DrawingPoint.mk x0 y0] t_id rnd t_ts in
  let w := run (gesture x0 y0 [] t_id rnd t_ts) s net in
  last (operations w.1) = Some op
  ∧ Render.drawOperation op = []
  ∧ logged <$> inserted_operations w.2
    = (logged <$> inserted_operations net)
      ++ [("draw", DrawingOperation.path op)].
Proof.
  intros op w.
  destruct (gesture_result x0 y0 [] t_id rnd t_ts s net) as (Ho & _).
  pose proof (gesture_logs_rows x0 y0 [] t_id rnd t_ts s net) as Hrows.
  split_and!.
  - subst w. rewrite Ho.
    destruct (CanvasDrawing.operations (canvas s));
      by rewrite last_app.
  - reflexivity.
  - exact Hrows.
Qed.

End Gesture.

(** ** What holds whatever happens to a replica *)
Module Invariants.
Import Canvas Users Realtime Realtime.Supabase Main Session StacksFacts.
Import Gesture.

Lemma run_invariant (P : CollaborativeCanvas → Net → Prop) :
  (∀ a s net, P s net → P (step a s net).1 (step a s net).2) →
  ∀ actions s net, P s net → P (run actions s net).1 (run actions s net).2.
Proof.
  intros Hstep actions. induction actions as [|a actions IH]; intros s net HP.
  - done.
  - rewrite run_cons. by apply IH, Hstep.
Qed.

Lemma pen_detach (old : list DrawingOperation.t) (c : CanvasDrawing.t) :
  pen (CanvasDrawing.detach old c) = pen c.
Proof.
  unfold CanvasDrawing.detach. by destruct (CanvasDrawing.operations c).
Qed.

Lemma handleRealtimeMessage_frame (t_id t_ts : Z)
    (message : RealtimeMessage.t) (s : CollaborativeCanvas) :
  let s' := handleRealtimeMessage t_id t_ts message s in
  pen (canvas s') = pen (canvas s)
  ∧ isMouseDown s' = isMouseDown s
  ∧ realtime s' = realtime s
  ∧ connectionStatus s' = connectionStatus s.
Proof.
  unfold handleRealtimeMessage, handleRemoteUndo, handleRemoteRedo.
  repeat case_match; simpl; rewrite ?pen_detach; done.
Qed.

Lemma callbacks_frame (t_id t_ts : Z) (messages : list RealtimeMessage.t) :
  ∀ s : CollaborativeCanvas,
    let s' := foldl (λ s1 message,
                       handleRealtimeMessage t_id t_ts message s1)
                    s messages in
    pen (canvas s') = pen (canvas s)
    ∧ isMouseDown s' = isMouseDown s
    ∧ realtime s' = realtime s
    ∧ connectionStatus s' = connectionStatus s.
Proof.
  induction messages as [|message messages IH]; intros s; [done|].
  simpl.
  destruct (IH (handleRealtimeMessage t_id t_ts message s))
    as (-> & -> & -> & ->).
  apply handleRealtimeMessage_frame.
Qed.

Ltac step_cases :=
  unfold step, mousedown, mousemove, mouseleave, mouseup, undo, redo, clear,
    connectToRoom, CanvasDrawing.draw, CanvasDrawing.stopDrawing;
  repeat case_match; simplify_eq;
  repeat match goal with
         | H : with_realtime ?f ?s0 ?n0 = (?c, ?n) |- _ =>
             assert (c = (with_realtime f s0 n0).1) as -> by (by rewrite H);
             assert (n = (with_realtime f s0 n0).2) as -> by (by rewrite H);
             clear H
         end;
  rewrite ?with_realtime_state, ?with_realtime_net; simpl.

Lemma send_identity (via : Stacks.Sender) (r : RealtimeSync.t) (net : Net) :
  identity (Stacks.send via r net).1 = identity r.
Proof. by rewrite send_state. Qed.

Lemma send_keeps_wire_in_order (via : Stacks.Sender) (r : RealtimeSync.t)
    (net : Net) :
  (0 ≤ RealtimeSync.operationIndex r)%Z →
  wire_in_order r net →
  wire_in_order (Stacks.send via r net).1 (Stacks.send via r net).2.
Proof.
  intros Hpos (Hrows & Hcast & indexes & Hidx & Hsorted & Hbelow).
  assert (Forall (λ i, (0 ≤ i < RealtimeSync.operationIndex r + 1)%Z) indexes)
    as Hbelow'.
  { eapply Forall_impl; [exact Hbelow|]. simpl. lia. }
  unfold wire_in_order, wire_indexes in *.
  rewrite send_state, send_inserted, send_broadcasts. simpl.
  split_and!.
  - rewrite Forall_app, Forall_singleton. done.
  - destruct (RealtimeSync.channel r); [|done].
    rewrite Forall_app, Forall_singleton. split; [done|]. by destruct via.
  - destruct (RealtimeSync.channel r); [|by exists indexes].
    exists (indexes ++ [RealtimeSync.operationIndex r]).
    rewrite !fmap_app, Hidx. split_and!.
    + by destruct via.
    + apply StronglySorted_app; split_and!;
        [ intros x1 x2 Hx1 Hx2; apply list_elem_of_singleton in Hx2 as ->;
          rewrite Forall_forall in Hbelow; by apply Hbelow
        | done
        | repeat constructor ].
    + rewrite Forall_app, Forall_singleton. split; [done | lia].
Qed.

Lemma connect_attempt_frame (how : RealtimeSync.Connecting)
    (r : RealtimeSync.t) :
  identity (RealtimeSync.connect_attempt how r).1 = identity r
  ∧ RealtimeSync.operationIndex (RealtimeSync.connect_attempt how r).1
    = RealtimeSync.operationIndex r.
Proof. by destruct how. Qed.

(** An action sends nothing, or is one call of one sender. *)
Lemma step_sends (a : Action) (s : CollaborativeCanvas) (net : Net) :
  (identity (realtime (step a s net).1) = identity (realtime s)
   ∧ RealtimeSync.operationIndex (realtime (step a s net).1)
     = RealtimeSync.operationIndex (realtime s)
   ∧ inserted_operations (step a s net).2 = inserted_operations net
   ∧ broadcasts (step a s net).2 = broadcasts net)
  ∨ ∃ via, realtime (step a s net).1 = (Stacks.send via (realtime s) net).1
           ∧ (step a s net).2 = (Stacks.send via (realtime s) net).2.
Proof.
  destruct a;
    try (destruct (callbacks_frame t_id t_ts (callbacks (realtime s) ev) s)
           as (_ & _ & Hr & _); left; simpl; by rewrite Hr);
    step_cases;
    first [ by left
          | left; unfold RealtimeSync.getOrCreateRoom; by case_match
          | left;
            match goal with
            | H : RealtimeSync.connect_attempt ?how ?r = _ |- _ =>
                destruct (connect_attempt_frame how r) as [Hid Hidx];
                rewrite H in Hid, Hidx; simpl in Hid, Hidx;
                rewrite Hid, Hidx
            end;
            unfold RealtimeSync.getOrCreateRoom; by case_match
          | right; by eexists (Stacks.SendDrawing _)
          | right; by eexists (Stacks.SendUndo _)
          | right; by eexists (Stacks.SendRedo _)
          | right; by eexists Stacks.SendClear ].
Qed.

Lemma step_keeps_wire_in_order (a : Action) (s : CollaborativeCanvas)
    (net : Net) :
  (0 ≤ RealtimeSync.operationIndex (realtime s))%Z
  ∧ wire_in_order (realtime s) net →
  (0 ≤ RealtimeSync.operationIndex (realtime (step a s net).1))%Z
  ∧ wire_in_order (realtime (step a s net).1) (step a s net).2.
Proof.
  intros [Hpos Hinv].
  destruct (step_sends a s net)
    as [(Hid & Hidx & Hrows & Hcast) | [via [-> ->]]].
  - unfold wire_in_order, wire_indexes, identity in *.
    injection Hid as -> -> _ _. by rewrite Hidx, Hrows, Hcast.
  - split; [|by apply send_keeps_wire_in_order].
    rewrite send_state. simpl. lia.
Qed.

(** X9 — what a replica sends is signed and numbered upwards.  After any
    sequence of actions on a fresh replica, every row it has inserted into
    [drawing_operations] carries its room id and user id, every payload it
    has broadcast carries its user id and a sequence number, and these
    numbers increase strictly from one broadcast to the next, starting at 0
    or above and staying below the send counter. *)
Theorem wire_signed_and_numbered_upwards (actions : list Action)
    (roomId userId username userColor status : string) :
  let w := run actions (fresh roomId userId username userColor status).1
               (fresh roomId userId username userColor status).2 in
  Forall (λ row, OperationInsert.room_id row = roomId
                 ∧ OperationInsert.user_id row = userId)
         (inserted_operations w.2)
  ∧ Forall (λ message, RealtimeMessage.userId message = userId)
           (broadcasts w.2)
  ∧ ∃ indexes : list Z,
      wire_indexes w.2 = Some <$> indexes
      ∧ StronglySorted Z.lt indexes
      ∧ Forall (λ i, (0 ≤ i < RealtimeSync.operationIndex (realtime w.1))%Z)
               indexes.
Proof.
  intros w.
  assert (((0 ≤ RealtimeSync.operationIndex (realtime w.1))%Z
           ∧ wire_in_order (realtime w.1) w.2)
          ∧ identity (realtime w.1) = (roomId, userId, username, userColor))
    as [[_ (Hrows & Hcast & Hidx)] [= Hroom Huser _ _]].
  { subst w.
    apply (run_invariant
             (λ s net, ((0 ≤ RealtimeSync.operationIndex (realtime s))%Z
                        ∧ wire_in_order (realtime s) net)
                       ∧ identity (realtime s)
                         = (roomId, userId, username, userColor))).
    - intros a s net [Hinv Hid]. split.
      + by apply step_keeps_wire_in_order.
      + rewrite <- Hid.
        destruct (step_sends a s net) as [(H & _) | [via [-> _]]];
          [done | apply send_identity].
    - split; [|done]. split; [done|].
      unfold wire_in_order. simpl. split_and!; try done.
      exists []. split_and!; by try constructor. }
  rewrite <- Hroom, <- Huser. done.
Qed.

(** X7 — an incoming message leaves the stroke in progress alone.  Whatever
    message the callback is handed, the recorder's stroke in progress (its
    drawing flag, the points so far, colour, width and tool), the mouse
    flag, the connection status and the whole [RealtimeSync] object,
    counter included, are as before: a message only changes the two stacks,
    the user registry and which array the recorder holds. *)
Theorem message_leaves_stroke_in_progress (t_id t_ts : Z)
    (message : RealtimeMessage.t) (s : CollaborativeCanvas) :
  let s' := handleRealtimeMessage t_id t_ts message s in
  pen (canvas s') = pen (canvas s)
  ∧ isMouseDown s' = isMouseDown s
  ∧ realtime s' = realtime s
  ∧ connectionStatus s' = connectionStatus s.
Proof. apply handleRealtimeMessage_frame. Qed.

(** The mouse is up and the recorder idle, or the mouse is down and the
    recorder is drawing a path that has a point. *)
Lemma pen_fewer (c c' : CanvasDrawing.t) :
  pen c' = pen c → (pen c').1.1.1.1 = (pen c).1.1.1.1.
Proof. by intros ->. Qed.

Lemma step_keeps_mouse_and_recorder (a : Action) (s : CollaborativeCanvas)
    (net : Net) :
  (isMouseDown s = false ∧ CanvasDrawing.isDrawing (canvas s) = false)
  ∨ (isMouseDown s = true ∧ CanvasDrawing.isDrawing (canvas s) = true
     ∧ CanvasDrawing.currentPath (canvas s) ≠ []) →
  let s' := (step a s net).1 in
  (isMouseDown s' = false ∧ CanvasDrawing.isDrawing (canvas s') = false)
  ∨ (isMouseDown s' = true ∧ CanvasDrawing.isDrawing (canvas s') = true
     ∧ CanvasDrawing.currentPath (canvas s') ≠ []).
Proof.
  intros Hinv.
  assert (∀ s1 : CollaborativeCanvas,
            (pen (canvas s1)).1.1.1.1 = (pen (canvas s)).1.1.1.1 →
            isMouseDown s1 = isMouseDown s →
            (isMouseDown s1 = false
             ∧ CanvasDrawing.isDrawing (canvas s1) = false)
            ∨ (isMouseDown s1 = true
               ∧ CanvasDrawing.isDrawing (canvas s1) = true
               ∧ CanvasDrawing.currentPath (canvas s1) ≠ [])) as Hsame.
  { intros s1 [= -> ->] ->. exact Hinv. }
  intros s'. subst s'. destruct a.
  - right. done.
  - simpl. unfold mousemove, CanvasDrawing.draw.
    destruct Hinv as [[Hm Hd] | (Hm & Hd & Hp)]; rewrite Hm; [by left|].
    rewrite Hd. simpl. rewrite ?with_realtime_state. simpl.
    right. split_and!; try done.
    unfold JSArray.push. intros H. by apply app_eq_nil in H as [_ ?].
  - left. simpl. unfold mouseup, CanvasDrawing.stopDrawing.
    destruct Hinv as [[Hm Hd] | (Hm & Hd & Hp)]; rewrite Hm; [done|].
    rewrite Hd. simpl. rewrite bool_decide_eq_false_2 by done.
    destruct (ops_push _ _ _). simpl. by rewrite with_realtime_pair.
  - left. simpl. unfold mouseleave, mouseup, CanvasDrawing.stopDrawing.
    destruct Hinv as [[Hm Hd] | (Hm & Hd & Hp)]; rewrite Hm; [done|].
    rewrite Hd. simpl. rewrite bool_decide_eq_false_2 by done.
    destruct (ops_push _ _ _). simpl. by rewrite with_realtime_pair.
  - by apply Hsame.
  - by apply Hsame.
  - by apply Hsame.
  - apply Hsame; unfold step, undo; repeat case_match;
      rewrite ?with_realtime_state; done.
  - apply Hsame; unfold step, redo; repeat case_match;
      rewrite ?with_realtime_state; done.
  - apply Hsame; unfold step, clear; rewrite with_realtime_state; simpl;
      unfold CanvasDrawing.detach;
      by destruct (CanvasDrawing.operations (canvas s)).
  - apply Hsame; unfold step, connectToRoom; repeat case_match; simpl;
      unfold CanvasDrawing.detach;
      by destruct (CanvasDrawing.operations (canvas s)).
  - destruct (callbacks_frame t_id t_ts (callbacks (realtime s) ev) s)
      as (Hpen & Hdown & _).
    apply Hsame; [by apply pen_fewer | done].
Qed.

(** X8 — the recorder follows the mouse.  After any sequence of actions on a
    fresh replica, either the mouse is up and the recorder is idle, or the
    mouse is down and the recorder is drawing a path of at least one point.
    So the [mouseup] listener, when the mouse is down, always gets a
    finished stroke from [stopDrawing]: its two early returns are never
    taken there. *)
Theorem recorder_follows_mouse (actions : list Action)
    (roomId userId username userColor status : string) :
  let w := run actions (fresh roomId userId username userColor status).1
               (fresh roomId userId username userColor status).2 in
  (isMouseDown w.1 = false ∧ CanvasDrawing.isDrawing (canvas w.1) = false)
  ∨ (isMouseDown w.1 = true ∧ CanvasDrawing.isDrawing (canvas w.1) = true
     ∧ CanvasDrawing.currentPath (canvas w.1) ≠ []
     ∧ ∀ t_id rnd t_ts,
         (CanvasDrawing.stopDrawing t_id rnd t_ts (canvas w.1)
            (operations w.1)).2
         = Some (finished (canvas w.1)
                   (CanvasDrawing.currentPath (canvas w.1)) t_id rnd t_ts)).
Proof.
  intros w.
  assert ((isMouseDown w.1 = false
           ∧ CanvasDrawing.isDrawing (canvas w.1) = false)
          ∨ (isMouseDown w.1 = true
             ∧ CanvasDrawing.isDrawing (canvas w.1) = true
             ∧ CanvasDrawing.currentPath (canvas w.1) ≠ [])) as H.
  { subst w.
    apply (run_invariant
             (λ s _, (isMouseDown s = false
                      ∧ CanvasDrawing.isDrawing (canvas s) = false)
                     ∨ (isMouseDown s = true
                        ∧ CanvasDrawing.isDrawing (canvas s) = true
                        ∧ CanvasDrawing.currentPath (canvas s) ≠ []))).
    - intros a s net. apply step_keeps_mouse_and_recorder.
    - by left. }
  destruct H as [H | (Hd & Hi & Hp)]; [by left|right].
  split_and!; try done.
  intros t_id rnd t_ts. unfold CanvasDrawing.stopDrawing.
  rewrite Hi. simpl. rewrite bool_decide_eq_false_2 by done.
  by destruct (ops_push _ _ _).
Qed.

End Invariants.

(** ** The user registry *)
Module Registry.
Import Canvas Users Realtime Realtime.Supabase Main Session Gesture.
Import Invariants.

(** X10 — a cursor message moves one cursor.  [updateCursor] sets the cursor
    of the named user and keeps that user's id, name and colour; every other
    user is untouched, and a cursor message for a user the registry does not
    hold adds nobody. *)
Theorem updateCursor_moves_one_cursor (userId : string) (x y : Z)
    (m : UserManager.t) (k : string) :
  UserManager.users (UserManager.updateCursor userId x y m) !! k
  = if decide (k = userId)
    then (λ user, User.mk (User.id user) (User.username user)
                          (User.color user) x y)
           <$> UserManager.users m !! userId
    else UserManager.users m !! k.
Proof.
  unfold UserManager.updateCursor.
  destruct (UserManager.users m !! userId) as [user|] eqn:E; simpl.
  - destruct (decide (k = userId)) as [->|Hne].
    + by rewrite lookup_insert_eq.
    + by rewrite lookup_insert_ne.
  - destruct (decide (k = userId)) as [->|Hne]; [by rewrite E | done].
Qed.

(** The handlers never hand the callback a message of the replica's own
    user. *)
Lemma callbacks_foreign (r : RealtimeSync.t) (ev : ChannelEvent) :
  Forall (λ message, RealtimeMessage.userId message ≠ RealtimeSync.userId r)
         (callbacks r ev).
Proof.
  destruct ev as [payload | state | key news | key]; simpl.
  - unfold RealtimeSync.broadcast_handler.
    destruct (RealtimeSync.onMessageCallback r); simpl; [|done].
    destruct (String.eqb _ _) eqn:E; simpl; [done|].
    apply Forall_singleton. by apply String.eqb_neq.
  - unfold Presence.handlePresenceSync.
    destruct (RealtimeSync.onMessageCallback r); [|done].
    induction state as [|[key presences] state IH]; simpl; [done|].
    apply Forall_app. split; [|done].
    destruct presences as [|presence presences]; [done|].
    destruct (String.eqb key _) eqn:E; simpl; [done|].
    apply Forall_singleton. by apply String.eqb_neq.
  - unfold Presence.presence_join.
    destruct (String.eqb key _) eqn:E; simpl; [done|].
    destruct news as [|user news]; [done|].
    destruct (RealtimeSync.onMessageCallback r); [|done].
    apply Forall_singleton. by apply String.eqb_neq.
  - unfold Presence.presence_leave.
    destruct (String.eqb key _) eqn:E; simpl; [done|].
    destruct (RealtimeSync.onMessageCallback r); [|done].
    apply Forall_singleton. by apply String.eqb_neq.
Qed.

Lemma foreign_message_keeps_self_out (t_id t_ts : Z)
    (message : RealtimeMessage.t) (s : CollaborativeCanvas) (own : string) :
  RealtimeMessage.userId message ≠ own →
  UserManager.users (userManager s) !! own = None →
  UserManager.users
    (userManager (handleRealtimeMessage t_id t_ts message s)) !! own = None.
Proof.
  intros Hne Hout.
  unfold handleRealtimeMessage, handleRemoteUndo, handleRemoteRedo,
    UserManager.updateCursor, UserManager.addUser, UserManager.removeUser.
  repeat case_match; simpl; try done.
  - by rewrite lookup_insert_ne.
  - by rewrite lookup_insert_ne.
  - by rewrite lookup_delete_ne.
Qed.

Lemma foreign_messages_keep_self_out (t_id t_ts : Z) (own : string)
    (messages : list RealtimeMessage.t) :
  Forall (λ message, RealtimeMessage.userId message ≠ own) messages →
  ∀ s : CollaborativeCanvas,
    UserManager.users (userManager s) !! own = None →
    UserManager.users
      (userManager
         (foldl (λ s1 message, handleRealtimeMessage t_id t_ts message s1)
                s messages)) !! own = None.
Proof.
  induction 1 as [|message messages Hne _ IH]; intros s Hout; [done|].
  simpl. by apply IH, foreign_message_keeps_self_out.
Qed.

Lemma step_identity (a : Action) (s : CollaborativeCanvas) (net : Net) :
  identity (realtime (step a s net).1) = identity (realtime s).
Proof.
  destruct (step_sends a s net) as [(H & _) | [via [-> _]]];
    [done | apply send_identity].
Qed.

Lemma step_keeps_self_out (a : Action) (s : CollaborativeCanvas) (net : Net) :
  UserManager.users (userManager s) !! RealtimeSync.userId (realtime s)
  = None →
  UserManager.users (userManager (step a s net).1)
    !! RealtimeSync.userId (realtime s) = None.
Proof.
  intros Hout. destruct a;
    try (simpl; apply foreign_messages_keep_self_out;
         [apply callbacks_foreign | done]);
    step_cases; done.
Qed.

(** X11 — a replica never lists itself.  After any sequence of actions on a
    fresh replica (broadcasts and presence events of any content included),
    the user registry holds no entry under the replica's own user id: every
    handler drops what comes from the replica itself before the callback
    sees it. *)
Theorem replica_never_registers_itself (actions : list Action)
    (roomId userId username userColor status : string) :
  let w := run actions (fresh roomId userId username userColor status).1
               (fresh roomId userId username userColor status).2 in
  UserManager.users (userManager w.1) !! userId = None
  ∧ identity (realtime w.1) = (roomId, userId, username, userColor).
Proof.
  intros w. subst w.
  apply (run_invariant
           (λ s _, UserManager.users (userManager s) !! userId = None
                   ∧ identity (realtime s)
                     = (roomId, userId, username, userColor))).
  - intros a s net [Hout Hid]. split.
    + assert (RealtimeSync.userId (realtime s) = userId) as Hown
        by (by injection Hid).
      rewrite <- Hown. apply step_keeps_self_out. by rewrite Hown.
    + by rewrite step_identity.
  - done.
Qed.

(** X12 — presence and cursor messages can be repeated.  Delivering a
    [clear], [cursor], [user_joined] or [user_left] message a second time
    leaves the whole replica, registry included, as the first delivery left
    it. *)
Theorem repeated_message_changes_nothing (t_id t_ts t_id' t_ts' : Z)
    (message : RealtimeMessage.t) (s : CollaborativeCanvas) :
  repeatable (RealtimeMessage.type message) = true →
  handleRealtimeMessage t_id' t_ts' message
    (handleRealtimeMessage t_id t_ts message s)
  = handleRealtimeMessage t_id t_ts message s.
Proof.
  unfold handleRealtimeMessage, UserManager.updateCursor, UserManager.addUser,
    UserManager.removeUser.
  destruct (RealtimeMessage.type message); try done; intros _.
  - destruct (RealtimeMessage.cursorX message) as [x|],
             (RealtimeMessage.cursorY message) as [y|]; try done.
    destruct (UserManager.users (userManager s)
                !! RealtimeMessage.userId message) as [user|] eqn:E; simpl.
    + rewrite lookup_insert_eq. simpl. by rewrite insert_insert_eq.
    + by rewrite E.
  - unfold set_undoneOperations, assign_operations, CanvasDrawing.detach.
    simpl.
    destruct (CanvasDrawing.operations (canvas s)) eqn:E; simpl;
      by rewrite ?E.
  - destruct (RealtimeMessage.username message) as [username|],
             (RealtimeMessage.color message) as [color|]; try done.
    destruct (_ || _); [done|]. simpl. by rewrite insert_insert_eq.
  - simpl. by rewrite delete_delete_eq.
Qed.

Lemma repeated_message_changes_nothing_witness :
  let joined := Stacks.with_type MessageType.user_joined Sample.bob_draw in
  handleRealtimeMessage 0 0 joined
    (handleRealtimeMessage 0 0 joined Sample.alice_connected)
  = handleRealtimeMessage 0 0 joined Sample.alice_connected.
Proof.
  apply (repeated_message_changes_nothing 0 0 0 0
           (Stacks.with_type MessageType.user_joined Sample.bob_draw)
           Sample.alice_connected).
  reflexivity.
Defined.

(** X13 — a user who leaves is gone.  A [user_joined] followed by a
    [user_left] of the same user removes that user from the registry,
    whether or not the join was accepted and whether or not the user was
    listed before; all other users stay as they were. *)
Theorem joined_then_left_is_absent (t_id t_ts t_id' t_ts' : Z)
    (joined left : RealtimeMessage.t) (s : CollaborativeCanvas) :
  RealtimeMessage.userId left = RealtimeMessage.userId joined →
  UserManager.users
    (userManager
       (handleRealtimeMessage t_id' t_ts'
          (Stacks.with_type MessageType.user_left left)
          (handleRealtimeMessage t_id t_ts
             (Stacks.with_type MessageType.user_joined joined) s)))
  = delete (RealtimeMessage.userId joined)
           (UserManager.users (userManager s)).
Proof.
  intros Hsame.
  unfold handleRealtimeMessage, Stacks.with_type, UserManager.addUser,
    UserManager.removeUser. simpl. rewrite Hsame.
  destruct (RealtimeMessage.username joined) as [username|],
           (RealtimeMessage.color joined) as [color|]; try done.
  destruct (_ || _); [done|]. simpl. by rewrite delete_insert_eq.
Qed.

Lemma joined_then_left_is_absent_witness :
  UserManager.users
    (userManager
       (handleRealtimeMessage 0 0
          (Stacks.with_type MessageType.user_left Sample.bob_draw)
          (handleRealtimeMessage 0 0
             (Stacks.with_type MessageType.user_joined Sample.bob_draw)
             Sample.alice_connected)))
  = delete "user-bob" (UserManager.users (userManager Sample.alice_connected)).
Proof.
  apply (joined_then_left_is_absent 0 0 0 0 Sample.bob_draw Sample.bob_draw
           Sample.alice_connected).
  reflexivity.
Defined.

End Registry.

(** ** Many undos, many redos *)
Module Repeated.
Import Canvas Users Realtime Realtime.Supabase Main Session.
Import Stacks StacksFacts.












End Repeated.

(** ** Senders, the log and the join *)
Module Traffic.
Import Canvas Users Realtime Realtime.Supabase Main Session.
Import Stacks StacksFacts Gesture.

(** X17 — an undo names what it took.  On a connected replica the undo
    button, whenever [operations] has a last element, broadcasts one [undo]
    message whose [operationId] is the id of that element, and writes one
    [undo] row with that id and no path, whatever the redo stack holds (it
    may be empty); the redo button does the same with the last element of
    [undoneOperations], whatever [operations] holds. *)
Theorem undo_redo_name_popped_operation (s : CollaborativeCanvas)
    (net : Net) :
  RealtimeSync.channel (realtime s) ≠ None →
  let r := realtime s in
  let sent (ty : MessageType.t) (op : DrawingOperation.t) :=
    RealtimeMessage.mk ty (RealtimeSync.userId r) None None None
      (Some (DrawingOperation.id op)) None None
      (Some (RealtimeSync.operationIndex r)) in
  let row (kind : string) (op : DrawingOperation.t) :=
    (RealtimeSync.roomId r, RealtimeSync.userId r, kind,
     @None DrawingPath.t, Some (DrawingOperation.id op)) in
  (∀ x, last (operations s) = Some x →
        broadcasts (undo s net).2 = broadcasts net ++ [sent MessageType.undo x]
        ∧ content <$> inserted_operations (undo s net).2
          = (content <$> inserted_operations net) ++ [row "undo" x])
  ∧ (∀ y, last (undoneOperations s) = Some y →
          broadcasts (redo s net).2
          = broadcasts net ++ [sent MessageType.redo y]
          ∧ content <$> inserted_operations (redo s net).2
            = (content <$> inserted_operations net) ++ [row "redo" y]).
Proof.
  intros Hchan r sent row.
  destruct (RealtimeSync.channel (realtime s)) as [topic|] eqn:E; [|done].
  split.
  - intros x Hx. apply last_Some in Hx as [rest Hops].
    unfold undo. rewrite Hops.
    rewrite bool_decide_eq_false_2 by (by destruct rest).
    change (rest ++ [x]) with (JSArray.push rest x).
    rewrite JSArrayFacts.pop_push, with_realtime_net.
    change (RealtimeSync.sendUndo ?i) with (send (SendUndo i)).
    rewrite send_broadcasts, send_inserted, fmap_app. simpl.
    by rewrite E.
  - intros y Hy. apply last_Some in Hy as [rest Hund].
    unfold redo. rewrite Hund.
    rewrite bool_decide_eq_false_2 by (by destruct rest).
    change (rest ++ [y]) with (JSArray.push rest y).
    rewrite JSArrayFacts.pop_push, with_realtime_net.
    change (RealtimeSync.sendRedo ?i) with (send (SendRedo i)).
    rewrite send_broadcasts, send_inserted, fmap_app. simpl.
    by rewrite E.
Qed.

(** An undo on a replica whose redo stack is empty, and a redo on a replica
    whose [operations] is empty. *)
Lemma undo_redo_name_popped_operation_witness :
  let undoing := set_undoneOperations [] Sample.alice_A_B in
  let redoing := assign_operations [] Sample.alice_A_B in
  let r := realtime Sample.alice_A_B in
  let sent (ty : MessageType.t) (op : DrawingOperation.t) :=
    RealtimeMessage.mk ty (RealtimeSync.userId r) None None None
      (Some (DrawingOperation.id op)) None None
      (Some (RealtimeSync.operationIndex r)) in
  let row (kind : string) (op : DrawingOperation.t) :=
    (RealtimeSync.roomId r, RealtimeSync.userId r, kind,
     @None DrawingPath.t, Some (DrawingOperation.id op)) in
  (undoneOperations undoing = []
   ∧ broadcasts (undo undoing empty_net).2
     = broadcasts empty_net ++ [sent MessageType.undo Sample.opA]
   ∧ content <$> inserted_operations (undo undoing empty_net).2
     = (content <$> inserted_operations empty_net) ++ [row "undo" Sample.opA])
  ∧ (operations redoing = []
     ∧ broadcasts (redo redoing empty_net).2
       = broadcasts empty_net ++ [sent MessageType.redo Sample.opB]
     ∧ content <$> inserted_operations (redo redoing empty_net).2
       = (content <$> inserted_operations empty_net)
         ++ [row "redo" Sample.opB]).
Proof.
  split; (split; [reflexivity|]).
  - apply (undo_redo_name_popped_operation
             (set_undoneOperations [] Sample.alice_A_B) empty_net);
      [discriminate | reflexivity].
  - apply (undo_redo_name_popped_operation
             (assign_operations [] Sample.alice_A_B) empty_net);
      [discriminate | reflexivity].
Defined.

(** X18 — before the channel exists, operations are logged but not
    broadcast.  While [connect] has not run (the channel is [null]) each of
    the four senders broadcasts nothing, still takes a number from the send
    counter and still inserts its row into the log. *)
Theorem unconnected_sender_logs_without_broadcast (via : Sender)
    (r : RealtimeSync.t) (net : Net) :
  RealtimeSync.channel r = None →
  broadcasts (send via r net).2 = broadcasts net
  ∧ content <$> inserted_operations (send via r net).2
    = (content <$> inserted_operations net)
      ++ [(RealtimeSync.roomId r, RealtimeSync.userId r, kind_of via,
           path_of via, target_of via)]
  ∧ RealtimeSync.operationIndex (send via r net).1
    = RealtimeSync.operationIndex r + 1.
Proof.
  intros Hchan.
  rewrite send_broadcasts, send_inserted, send_state, Hchan, fmap_app.
  done.
Qed.

Lemma unconnected_sender_logs_without_broadcast_witness :
  let r := realtime Sample.alice in
  broadcasts (send SendClear r empty_net).2 = broadcasts empty_net
  ∧ content <$> inserted_operations (send SendClear r empty_net).2
    = (content <$> inserted_operations empty_net)
      ++ [(RealtimeSync.roomId r, RealtimeSync.userId r, kind_of SendClear,
           path_of SendClear, target_of SendClear)]
  ∧ RealtimeSync.operationIndex (send SendClear r empty_net).1
    = RealtimeSync.operationIndex r + 1.
Proof.
  apply (unconnected_sender_logs_without_broadcast SendClear
           (realtime Sample.alice) empty_net).
  reflexivity.
Defined.

(** X19 — what is saved is what is loaded.  The row a sender writes, once
    stored (with the id and creation time the table gives it) and loaded
    back, becomes one operation with the path that was sent, the user id of
    the sender, the id and the time of the row, and the kind of the row as
    its type: [draw] for every stroke, eraser strokes included (the tool
    survives inside the path), and [undo], [redo] or [clear] with no path
    for the other three senders. *)
Theorem saved_row_loads_back (via : Sender) (r : RealtimeSync.t) (net : Net)
    (id : string) (created_at : Z) :
  ∃ row,
    last (inserted_operations (send via r net).2) = Some row
    ∧ RealtimeSync.loadOperations
        (mkResult (Some [stored id created_at row]) None)
      = [DrawingOperation.mk id (kind_of via) (path_of via) created_at
           (RealtimeSync.userId r)].
Proof.
  rewrite send_inserted. eexists. split; [apply last_snoc | reflexivity].
Qed.

(** X20 — what a join sends.  Whatever the replies, [connectToRoom] writes
    nothing to the operation log and broadcasts nothing, leaves the send
    counter and the redo stack as they are, and inserts a room (with the
    replica's room id, named ["Room "] followed by that id) exactly when the
    room lookup was answered with no room. *)
Theorem join_only_creates_room (replies : JoinReplies)
    (s : CollaborativeCanvas) (net : Net) :
  let w := connectToRoom replies s net in
  inserted_operations w.2 = inserted_operations net
  ∧ broadcasts w.2 = broadcasts net
  ∧ inserted_rooms w.2
    = inserted_rooms net
      ++ match room_lookup replies with
         | Fulfilled None =>
             [RoomInsert.mk (RealtimeSync.roomId (realtime s))
                ("Room " +:+ RealtimeSync.roomId (realtime s))]
         | _ => []
         end
  ∧ RealtimeSync.operationIndex (realtime w.1)
    = RealtimeSync.operationIndex (realtime s)
  ∧ undoneOperations w.1 = undoneOperations s.
Proof.
  destruct replies as [[[room|]|reason] [[]|reason'] [reply|reason'']
                         [|reason3|reason3]]; simpl;
    by rewrite ?app_nil_r.
Qed.

(** X21 — messages are delivered once joined, and only then.  A fresh
    replica ignores every broadcast; after an answered join, every broadcast
    that carries another user's id is handed to [handleRealtimeMessage]. *)
Theorem joined_replica_handles_foreign_broadcast (t_id t_ts : Z)
    (payload : RealtimeMessage.t) (existing : option string)
    (reply : QueryResult (list OperationRow.t))
    (roomId userId username userColor status : string) (net : Net) :
  RealtimeMessage.userId payload ≠ userId →
  let s := Main.new roomId userId username userColor status in
  let joined :=
    (connectToRoom (mkReplies (Fulfilled existing) (Fulfilled reply))
       s net).1 in
  broadcast_handler t_id t_ts payload s = s
  ∧ broadcast_handler t_id t_ts payload joined
    = handleRealtimeMessage t_id t_ts payload joined.
Proof.
  intros Hne s joined. split; [done|].
  unfold broadcast_handler, RealtimeSync.broadcast_handler. simpl.
  apply String.eqb_neq in Hne. by rewrite Hne.
Qed.

Lemma joined_replica_handles_foreign_broadcast_witness :
  let s := Main.new "room-1" "user-alice" "QuickFox" "#3b82f6" "Offline" in
  let joined :=
    (connectToRoom (mkReplies (Fulfilled None)
                      (Fulfilled (mkResult (Some []) None))) s empty_net).1 in
  broadcast_handler 0 0 Sample.bob_draw s = s
  ∧ broadcast_handler 0 0 Sample.bob_draw joined
    = handleRealtimeMessage 0 0 Sample.bob_draw joined.
Proof.
  apply (joined_replica_handles_foreign_broadcast 0 0 Sample.bob_draw None
           (mkResult (Some []) None) "room-1" "user-alice" "QuickFox"
           "#3b82f6" "Offline" empty_net).
  discriminate.
Defined.

End Traffic.

(** ** What the canvas shows *)
Module Painting.
Import Canvas Users Realtime Realtime.Supabase Main Session.
Import Render.

Lemma curves_keep (prevPoint : DrawingPoint.t) (rest : list DrawingPoint.t) :
  Forall (λ call, call ≠ clearRect) (curves prevPoint rest).
Proof.
  revert prevPoint. induction rest as [|point rest IH]; intros prevPoint.
  - constructor.
  - simpl. constructor; [done | apply IH].
Qed.

(** Drawing a path never clears the canvas. *)
Lemma drawPath_keeps (path : DrawingPath.t) :
  Forall (λ call, call ≠ clearRect) (drawPath path).
Proof.
  unfold drawPath.
  destruct (DrawingPath.points path) as [|first [|second rest]]; try done.
  repeat (apply Forall_app; split); try apply curves_keep;
    repeat case_match; repeat constructor; done.
Qed.

Lemma drawOperations_keep (ops : list DrawingOperation.t) :
  Forall (λ call, call ≠ clearRect) (flat_map drawOperation ops).
Proof.
  induction ops as [|op ops IH]; simpl; [constructor|].
  apply Forall_app. split; [|done].
  unfold drawOperation. case_match; [apply drawPath_keeps | constructor].
Qed.

Lemma since_clear_keeps (calls shown : list Call) :
  Forall (λ call, call ≠ clearRect) calls →
  since_clear shown calls = shown ++ calls.
Proof.
  intros Hkeep. revert shown.
  induction Hkeep as [|call calls Hcall _ IH]; intros shown; simpl.
  - by rewrite app_nil_r.
  - destruct call; try done; by rewrite IH, <- app_assoc.
Qed.

Lemma since_clear_app (before after shown : list Call) :
  since_clear shown (before ++ after)
  = since_clear (since_clear shown before) after.
Proof.
  revert shown. induction before as [|call before IH]; intros shown; [done|].
  destruct call; simpl; apply IH.
Qed.

Lemma since_redraw (ops : list DrawingOperation.t) (shown : list Call) :
  since_clear shown (redrawOperations ops) = flat_map drawOperation ops.
Proof.
  unfold redrawOperations, clear. simpl.
  by rewrite since_clear_keeps by apply drawOperations_keep.
Qed.

(** X22 — after a message the canvas shows the active operations.  If the
    canvas shows the replay of [operations] (what [redrawOperations] draws
    after its clear), then after any incoming message is handled it shows
    the replay of the new [operations]: a remote stroke drawn on top, a
    redraw after a remote undo or redo and a remote clear all leave the
    picture a later full replay would give. *)
Theorem canvas_shows_operations_after_message (t_id t_ts : Z)
    (message : RealtimeMessage.t) (s : CollaborativeCanvas)
    (drawn : list Call) :
  picture drawn = flat_map drawOperation (operations s) →
  picture (drawn ++ handleRealtimeMessage_calls message s)
  = flat_map drawOperation
      (operations (handleRealtimeMessage t_id t_ts message s)).
Proof.
  unfold picture. intros Hshown. rewrite since_clear_app, Hshown.
  unfold handleRealtimeMessage_calls, handleRealtimeMessage.
  destruct (RealtimeMessage.type message); simpl.
  - destruct (RealtimeMessage.path message) as [path|]; simpl; [|done].
    unfold JSArray.push. rewrite flat_map_app. simpl. rewrite app_nil_r.
    apply since_clear_keeps, drawPath_keeps.
  - by repeat case_match.
  - case_bool_decide as Hnil; [|apply since_redraw].
    unfold handleRemoteUndo. by rewrite bool_decide_eq_true_2.
  - case_bool_decide as Hnil; [|apply since_redraw].
    unfold handleRemoteRedo. by rewrite bool_decide_eq_true_2.
  - done.
  - by repeat case_match.
  - done.
Qed.

Lemma canvas_shows_operations_after_message_witness :
  picture (redrawOperations (operations Sample.alice_A_B)
           ++ handleRealtimeMessage_calls Sample.bob_draw Sample.alice_A_B)
  = flat_map drawOperation
      (operations (handleRealtimeMessage 0 0 Sample.bob_draw
                     Sample.alice_A_B)).
Proof.
  apply (canvas_shows_operations_after_message 0 0 Sample.bob_draw
           Sample.alice_A_B
           (redrawOperations (operations Sample.alice_A_B))).
  reflexivity.
Defined.

(** X23 — after undo, redo or clear the canvas shows the active operations.
    If the canvas shows the replay of [operations], then after the undo
    button, after the redo button and after the clear button it shows the
    replay of the new [operations] (an undo or redo that finds nothing to
    move draws nothing and changes nothing). *)
Theorem canvas_shows_operations_after_button (s : CollaborativeCanvas)
    (net : Net) (drawn : list Call) :
  picture drawn = flat_map drawOperation (operations s) →
  picture (drawn ++ undo_calls s)
  = flat_map drawOperation (operations (undo s net).1)
  ∧ picture (drawn ++ redo_calls s)
    = flat_map drawOperation (operations (redo s net).1)
  ∧ picture (drawn ++ clear_calls)
    = flat_map drawOperation (operations (Main.clear s net).1).
Proof.
  unfold picture, undo_calls, redo_calls, clear_calls. intros Hshown.
  split_and!; rewrite since_clear_app, Hshown.
  - unfold undo. case_bool_decide as Hnil; [done|].
    rewrite since_redraw. f_equal.
    pose proof (StacksFacts.undo_stacks s net) as Hu.
    pose proof (StacksFacts.handleRemoteUndo_stacks s) as Hr.
    rewrite <- Hr in Hu. unfold undo in Hu.
    rewrite bool_decide_eq_false_2 in Hu by done. by injection Hu.
  - unfold redo. case_bool_decide as Hnil; [done|].
    rewrite since_redraw. f_equal.
    pose proof (StacksFacts.redo_stacks s net) as Hu.
    pose proof (StacksFacts.handleRemoteRedo_stacks s) as Hr.
    rewrite <- Hr in Hu. unfold redo in Hu.
    rewrite bool_decide_eq_false_2 in Hu by done. by injection Hu.
  - unfold Main.clear. by rewrite StacksFacts.with_realtime_state.
Qed.

Lemma canvas_shows_operations_after_button_witness :
  let drawn := redrawOperations (operations Sample.alice_A_B) in
  picture (drawn ++ undo_calls Sample.alice_A_B)
  = flat_map drawOperation (operations (undo Sample.alice_A_B empty_net).1)
  ∧ picture (drawn ++ redo_calls Sample.alice_A_B)
    = flat_map drawOperation (operations (redo Sample.alice_A_B empty_net).1)
  ∧ picture (drawn ++ clear_calls)
    = flat_map drawOperation
        (operations (Main.clear Sample.alice_A_B empty_net).1).
Proof.
  apply (canvas_shows_operations_after_button Sample.alice_A_B empty_net
           (redrawOperations (operations Sample.alice_A_B))).
  reflexivity.
Defined.

End Painting.

(** ** The cursor throttle *)
Module Throttle.
Import Session.

(** X24 — cursor updates are more than 50 ms apart.  Over any run of
    [mousemove] events, whatever the clock reads (it may even step back),
    [sendCursor] is called only at readings of those events, in their order,
    and each call is more than [cursorThrottle] = 50 later than the call
    before it (than the initial [lastCursorSendTime] for the first). *)
Theorem cursor_sends_are_spaced (lastCursorSendTime : Z) (clock : list Z) :
  Sorted (λ earlier later, (cursorThrottle < later - earlier)%Z)
         (lastCursorSendTime :: cursor_sends lastCursorSendTime clock)
  ∧ cursor_sends lastCursorSendTime clock `sublist_of` clock.
Proof.
  revert lastCursorSendTime.
  induction clock as [|now clock IH]; intros lastCursorSendTime.
  - split; [by repeat constructor | done].
  - simpl. unfold cursor_half.
    destruct (Z.ltb_spec cursorThrottle (now - lastCursorSendTime))
      as [Hlate | Hearly]; simpl.
    + destruct (IH now) as [Hsorted Hsub]. split.
      * constructor; [done | by constructor].
      * by apply sublist_skip.
    + destruct (IH lastCursorSendTime) as [Hsorted Hsub]. split.
      * done.
      * by apply sublist_cons.
Qed.

End Throttle.
